(** * pixelplotter: the calibration and coordinate-transform engine

    A shallow embedding of [ChartDigitizer] (src/pixelplotter.py): the view
    transform (zoom and pan), the linear axis calibration, the click state
    machine and the table of selected points, with the properties the
    specification states about them.

    Numbers.  Python [int] is [Z].  A Python [float] that the program computes
    from event coordinates and the constants 1.0, 1.1 and 0.9 is an exact
    rational ([Qc], canonical rationals, with Leibniz equality): binary64
    rounding, overflow and underflow are not modelled.  A float read from one
    of the four axis entries may also be an infinity or a NaN, since Python's
    [float()] accepts the texts "inf" and "nan"; the type [float] below has
    them, with the IEEE 754 rules for arithmetic on them.

    Widgets.  The canvas and the status labels are write-only for the program
    and are left out, and with them [draw_image], [update_status] and
    [on_mouse_move], which only write to them.  An axis entry is represented by the outcome of
    [float(entry.get())].  The Treeview is an ordered list of items, each
    with its item id and its five values; a calibrated cell is [None] for the
    empty text and [Some v] for the text rendered from the float [v] (the
    six-digit rendering itself is not modelled). *)

From Stdlib Require Import ZArith QArith Qcanon Qround List String DecimalString Bool Lia.
Import ListNotations.

Open Scope Z_scope.

(** * The program *)

(** ** Python numbers and exceptions *)

Inductive exn : Type :=
| ZeroDivisionError.

Inductive result (A : Type) : Type :=
| Return (a : A)
| Raise (e : exn).

Arguments Return {A} a.
Arguments Raise {A} e.

Module PyNum.

(** An [int] used where a float is expected. *)
Definition of_int (z : Z) : Qc := Q2Qc (inject_Z z).

(** [int(x)] on a finite float: truncation towards zero. *)
Definition py_int (x : Qc) : Z := Z.quot (Qnum x) (Zpos (Qden x)).

(** [a / b] on finite numbers. *)
Definition truediv (a b : Qc) : result Qc :=
  if Qc_eq_dec b 0%Qc then Raise ZeroDivisionError else Return (a / b)%Qc.

Definition is_neg (x : Qc) : bool :=
  match (x ?= 0)%Qc with Lt => true | _ => false end.

Definition is_zero (x : Qc) : bool := Qc_eq_bool x 0%Qc.

(** The values of Python's [float]: finite ones, the two infinities
    ([Inf true] is the negative one) and NaN. *)
Inductive float : Type :=
| Fin (q : Qc)
| Inf (negative : bool)
| NaN.

Definition is_finite (a : float) : bool :=
  match a with Fin _ => true | _ => false end.

Definition neg (a : float) : float :=
  match a with
  | Fin x => Fin (- x)%Qc
  | Inf s => Inf (negb s)
  | NaN => NaN
  end.

Definition add (a b : float) : float :=
  match a, b with
  | NaN, _ | _, NaN => NaN
  | Fin x, Fin y => Fin (x + y)%Qc
  | Inf s, Fin _ => Inf s
  | Fin _, Inf s => Inf s
  | Inf s, Inf t => if Bool.eqb s t then Inf s else NaN
  end.

Definition sub (a b : float) : float := add a (neg b).

Definition mul (a b : float) : float :=
  match a, b with
  | NaN, _ | _, NaN => NaN
  | Fin x, Fin y => Fin (x * y)%Qc
  | Inf s, Fin y => if is_zero y then NaN else Inf (xorb s (is_neg y))
  | Fin x, Inf s => if is_zero x then NaN else Inf (xorb s (is_neg x))
  | Inf s, Inf t => Inf (xorb s t)
  end.

(** [a / b]: Python raises on a zero divisor whatever the dividend. *)
Definition div (a b : float) : result float :=
  match a, b with
  | _, Fin y =>
      if is_zero y then Raise ZeroDivisionError
      else Return match a with
                  | Fin x => Fin (x / y)%Qc
                  | Inf s => Inf (xorb s (is_neg y))
                  | NaN => NaN
                  end
  | NaN, _ | _, NaN => Return NaN
  | Fin _, Inf _ => Return (Fin 0%Qc)
  | Inf _, Inf _ => Return NaN
  end.

End PyNum.

Import PyNum.

(** ** Widgets *)

(** [self.image.shape[:2]] is [(h, w)]; nothing else of the image is read. *)
Record cv_image : Type := mkImage { height : Z; width : Z }.

Definition point : Type := (Z * Z)%type.

(** The values of one Treeview row: [(idx, img_x, img_y, x_val_str, y_val_str)]. *)
Record row : Type := mkRow {
  row_index : Z;
  row_px : Z;
  row_py : Z;
  row_x : option float;
  row_y : option float
}.

Definition iid : Type := nat.

Record treeview : Type := mkTree {
  children : list (iid * row);
  next_iid : nat
}.

Module Tree.

Definition empty : treeview := mkTree [] 0.

(** [tree.insert(parent, 'end', values=r)] with the root as parent *)
Definition insert (t : treeview) (r : row) : treeview :=
  mkTree (children t ++ [(next_iid t, r)]) (S (next_iid t)).

(** [tree.delete(i)] *)
Definition delete (t : treeview) (i : iid) : treeview :=
  mkTree (filter (fun c => negb (Nat.eqb (fst c) i)) (children t)) (next_iid t).

(** [tree.delete( *tree.get_children())] *)
Definition delete_all (t : treeview) : treeview := mkTree [] (next_iid t).

(** [tree.item(i, "values")] *)
Definition item (t : treeview) (i : iid) : option row :=
  option_map snd (find (fun c => Nat.eqb (fst c) i) (children t)).

(** [tree.selection()] when the user has highlighted the rows [picked]:
    the selection holds items of the tree only. *)
Definition selection (t : treeview) (picked : list iid) : list iid :=
  filter (fun i => existsb (Nat.eqb i) picked) (map fst (children t)).

End Tree.

(** ** The state of a [ChartDigitizer] *)

Definition entry : Type := option float.

Record state : Type := mkState {
  image : option cv_image;
  scale : Qc;
  offset_x : Qc;
  offset_y : Qc;
  drag_start : option (Z * Z);
  axis_points : list point;
  data_points : list point;
  panning_by_shift : bool;
  x0_entry : entry;
  x1_entry : entry;
  y0_entry : entry;
  y1_entry : entry;
  tree : treeview
}.

(** [__init__] *)
Definition init : state :=
  mkState None 1%Qc 0%Qc 0%Qc None [] [] false None None None None Tree.empty.

Definition set_image (s : state) (v : option cv_image) : state :=
  mkState v (scale s) (offset_x s) (offset_y s) (drag_start s) (axis_points s)
    (data_points s) (panning_by_shift s) (x0_entry s) (x1_entry s) (y0_entry s)
    (y1_entry s) (tree s).

Definition set_scale (s : state) (v : Qc) : state :=
  mkState (image s) v (offset_x s) (offset_y s) (drag_start s) (axis_points s)
    (data_points s) (panning_by_shift s) (x0_entry s) (x1_entry s) (y0_entry s)
    (y1_entry s) (tree s).

Definition set_offset_x (s : state) (v : Qc) : state :=
  mkState (image s) (scale s) v (offset_y s) (drag_start s) (axis_points s)
    (data_points s) (panning_by_shift s) (x0_entry s) (x1_entry s) (y0_entry s)
    (y1_entry s) (tree s).

Definition set_offset_y (s : state) (v : Qc) : state :=
  mkState (image s) (scale s) (offset_x s) v (drag_start s) (axis_points s)
    (data_points s) (panning_by_shift s) (x0_entry s) (x1_entry s) (y0_entry s)
    (y1_entry s) (tree s).

Definition set_drag_start (s : state) (v : option (Z * Z)) : state :=
  mkState (image s) (scale s) (offset_x s) (offset_y s) v (axis_points s)
    (data_points s) (panning_by_shift s) (x0_entry s) (x1_entry s) (y0_entry s)
    (y1_entry s) (tree s).

Definition set_axis_points (s : state) (v : list point) : state :=
  mkState (image s) (scale s) (offset_x s) (offset_y s) (drag_start s) v
    (data_points s) (panning_by_shift s) (x0_entry s) (x1_entry s) (y0_entry s)
    (y1_entry s) (tree s).

Definition set_data_points (s : state) (v : list point) : state :=
  mkState (image s) (scale s) (offset_x s) (offset_y s) (drag_start s)
    (axis_points s) v (panning_by_shift s) (x0_entry s) (x1_entry s) (y0_entry s)
    (y1_entry s) (tree s).

Definition set_panning_by_shift (s : state) (v : bool) : state :=
  mkState (image s) (scale s) (offset_x s) (offset_y s) (drag_start s)
    (axis_points s) (data_points s) v (x0_entry s) (x1_entry s) (y0_entry s)
    (y1_entry s) (tree s).

Definition set_entries (s : state) (x0 x1 y0 y1 : entry) : state :=
  mkState (image s) (scale s) (offset_x s) (offset_y s) (drag_start s)
    (axis_points s) (data_points s) (panning_by_shift s) x0 x1 y0 y1 (tree s).

Definition set_tree (s : state) (v : treeview) : state :=
  mkState (image s) (scale s) (offset_x s) (offset_y s) (drag_start s)
    (axis_points s) (data_points s) (panning_by_shift s) (x0_entry s)
    (x1_entry s) (y0_entry s) (y1_entry s) v.

(** What a handler leaves behind: it ran to its end, or an exception left it
    and reached Tk's event loop with the object as it was at that moment. *)
Inductive outcome : Type :=
| Done (s : state)
| Raised (e : exn) (s : state).

Definition state_of (o : outcome) : state :=
  match o with Done s => s | Raised _ s => s end.

(** ** Calibration *)

(** [compute_calibrated_point]: [None] is Python's [None]. *)
Definition compute_calibrated_point (s : state) (img_x img_y : Qc)
  : result (option (float * float)) :=
  match image s with
  | None => Return None
  | Some _ =>
    if negb (Nat.eqb (List.length (axis_points s)) 4) then Return None else
    match x0_entry s, x1_entry s, y0_entry s, y1_entry s with
    | Some x0_val, Some x1_val, Some y0_val, Some y1_val =>
      let x0_px := fst (nth 0 (axis_points s) (0, 0)) in
      let x1_px := fst (nth 1 (axis_points s) (0, 0)) in
      let y0_py := snd (nth 2 (axis_points s) (0, 0)) in
      let y1_py := snd (nth 3 (axis_points s) (0, 0)) in
      if (x1_px =? x0_px) || (y0_py =? y1_py) then Return None else
      match div (sub x1_val x0_val) (Fin (of_int (x1_px - x0_px))) with
      | Raise e => Raise e
      | Return x_scale =>
        match div (sub y1_val y0_val) (Fin (of_int (y0_py - y1_py))) with
        | Raise e => Raise e
        | Return y_scale =>
          let x_val := add x0_val (mul (Fin (img_x - of_int x0_px)%Qc) x_scale) in
          let y_val := add y0_val (mul (Fin (of_int y0_py - img_y)%Qc) y_scale) in
          Return (Some (x_val, y_val))
        end
      end
    | _, _, _, _ => Return None
    end
  end.

(** ** Table operations *)

Definition make_row (idx px py : Z) (calib : option (float * float)) : row :=
  match calib with
  | None => mkRow idx px py None None
  | Some (x_val, y_val) => mkRow idx px py (Some x_val) (Some y_val)
  end.

(** The loop of [refresh_table]: [enumerate(self.data_points, start=1)],
    here from [i] on. *)
Fixpoint refresh_rows (s : state) (i : Z) (pts : list point) : outcome :=
  match pts with
  | [] => Done s
  | (px, py) :: rest =>
    match compute_calibrated_point s (of_int px) (of_int py) with
    | Raise e => Raised e s
    | Return calib =>
      refresh_rows (set_tree s (Tree.insert (tree s) (make_row i px py calib)))
                   (i + 1) rest
    end
  end.

Definition refresh_table (s : state) : outcome :=
  let s1 := set_tree s (Tree.delete_all (tree s)) in
  refresh_rows s1 1 (data_points s1).

Definition clear_table (s : state) : state :=
  set_data_points (set_tree s (Tree.delete_all (tree s))) [].

Definition row_point (c : iid * row) : point := (row_px (snd c), row_py (snd c)).

(** [delete_selected].  The loop also overwrites [data_points[idx]] with
    [None] for each deleted row; the list is replaced by [new_points] right
    after the loop, so those writes are never read. *)
Definition delete_selected (s : state) (picked : list iid) : outcome :=
  match Tree.selection (tree s) picked with
  | [] => Done s
  | sel =>
    let t := fold_left Tree.delete sel (tree s) in
    let new_points := map row_point (children t) in
    refresh_table (set_data_points (set_tree s t) new_points)
  end.

Definition point_eqb (p q : point) : bool :=
  (fst p =? fst q) && (snd p =? snd q).

(** [list.remove(p)]: the first occurrence; Python raises [ValueError] when
    there is none, which [edit_entry] catches and ignores. *)
Fixpoint list_remove (p : point) (l : list point) : list point :=
  match l with
  | [] => []
  | q :: rest => if point_eqb q p then rest else q :: list_remove p rest
  end.

(** [edit_entry]: a double click on a table row. *)
Definition edit_entry (s : state) (picked : list iid) : outcome :=
  match Tree.selection (tree s) picked with
  | [] => Done s
  | i :: _ =>
    match Tree.item (tree s) i with
    | None => Done s
    | Some vals =>
      let s1 := set_data_points s (list_remove (row_px vals, row_py vals) (data_points s)) in
      refresh_table (set_tree s1 (Tree.delete (tree s1) i))
    end
  end.

(** ** Image loading and reset *)

Definition reset_view (s : state) (keep_table : bool) : state :=
  let s := set_scale s 1%Qc in
  let s := set_offset_x s 0%Qc in
  let s := set_offset_y s 0%Qc in
  let s := set_drag_start s None in
  let s := set_axis_points s [] in
  let s := set_data_points s [] in
  if keep_table then s else clear_table s.

(** [load_image]; [r] is what the file dialog and [cv2.imread] produced,
    [None] when the dialog was cancelled or the file could not be read. *)
Definition load_image (s : state) (r : option cv_image) : state :=
  match r with
  | None => s
  | Some img => reset_view (set_image s (Some img)) false
  end.

Definition reset_all (s : state) : state :=
  let s := set_axis_points s [] in
  let s := set_data_points s [] in
  let s := set_scale s 1%Qc in
  let s := set_offset_x s 0%Qc in
  let s := set_offset_y s 0%Qc in
  let s := set_drag_start s None in
  let s := set_panning_by_shift s false in
  let s := set_entries s None None None None in
  clear_table s.

(** ** Click handling *)

Definition on_left_click (s : state) (event_x event_y : Z) : outcome :=
  if panning_by_shift s then Done s else
  match image s with
  | None => Done s
  | Some img =>
    match truediv (of_int event_x - offset_x s)%Qc (scale s) with
    | Raise e => Raised e s
    | Return qx =>
      match truediv (of_int event_y - offset_y s)%Qc (scale s) with
      | Raise e => Raised e s
      | Return qy =>
        let img_x := Z.max 0 (Z.min (width img - 1) (py_int qx)) in
        let img_y := Z.max 0 (Z.min (height img - 1) (py_int qy)) in
        if Nat.ltb (List.length (axis_points s)) 4 then
          Done (set_axis_points s (axis_points s ++ [(img_x, img_y)]))
        else
          let s1 := set_data_points s (data_points s ++ [(img_x, img_y)]) in
          match compute_calibrated_point s1 (of_int img_x) (of_int img_y) with
          | Raise e => Raised e s1
          | Return calib =>
            let idx := Z.of_nat (List.length (data_points s1)) in
            Done (set_tree s1 (Tree.insert (tree s1) (make_row idx img_x img_y calib)))
          end
      end
    end
  end.

(** ** Zoom and pan *)

Definition zoom_in_factor : Qc := Q2Qc (11 # 10).
Definition zoom_out_factor : Qc := Q2Qc (9 # 10).

(** [on_zoom(event, delta)]: [event_delta] is [event.delta], read only when
    [delta] is [None]. *)
Definition on_zoom (s : state) (event_x event_y event_delta : Z) (delta : option Z)
  : outcome :=
  match image s with
  | None => Done s
  | Some _ =>
    let delta := match delta with
                 | None => if event_delta >? 0 then 1 else -1
                 | Some d => d
                 end in
    let factor := if delta >? 0 then zoom_in_factor else zoom_out_factor in
    let mx := of_int event_x in
    let my := of_int event_y in
    match truediv (mx - offset_x s)%Qc (scale s) with
    | Raise e => Raised e s
    | Return ix_before =>
      match truediv (my - offset_y s)%Qc (scale s) with
      | Raise e => Raised e s
      | Return iy_before =>
        let s := set_scale s (scale s * factor)%Qc in
        let s := set_offset_x s (mx - ix_before * scale s)%Qc in
        let s := set_offset_y s (my - iy_before * scale s)%Qc in
        refresh_table s
      end
    end
  end.

Definition start_pan (s : state) (event_x event_y : Z) : state :=
  set_panning_by_shift (set_drag_start s (Some (event_x, event_y))) false.

Definition start_pan_shift (s : state) (event_x event_y : Z) : state :=
  set_panning_by_shift (set_drag_start s (Some (event_x, event_y))) true.

Definition do_pan (s : state) (event_x event_y : Z) : outcome :=
  match drag_start s with
  | None => Done s
  | Some (start_x, start_y) =>
    let dx := event_x - start_x in
    let dy := event_y - start_y in
    let s := set_offset_x s (offset_x s + of_int dx)%Qc in
    let s := set_offset_y s (offset_y s + of_int dy)%Qc in
    let s := set_drag_start s (Some (event_x, event_y)) in
    refresh_table s
  end.

Definition end_pan (s : state) : state :=
  set_panning_by_shift (set_drag_start s None) false.

(** ** Conversion and plot *)

Definition msg_four_points : string :=
  "Please select exactly 4 axis points (X0, X1, Y0, Y1).".
Definition msg_numeric : string :=
  "Please enter numeric axis values in X0,X1,Y0,Y1.".
Definition msg_zero_division : string :=
  "Axis points produce zero division (choose distinct axis points).".
Definition msg_no_points : string := "No data points to plot.".

(** What [convert_points] hands back: [Refused msg] stands for an error box
    with text [msg] followed by [return None]. *)
Inductive conversion : Type :=
| Refused (msg : string)
| Converted (rows : list (Z * Z * float * float)).

(** The loop of [convert_points] over [self.data_points]. *)
Fixpoint convert_rows (x0_val y0_val x_scale y_scale : float) (x0_px y0_py : Z)
    (pts : list point) : list (Z * Z * float * float) :=
  match pts with
  | [] => []
  | (px, py) :: rest =>
    let x_val := add x0_val (mul (Fin (of_int (px - x0_px))) x_scale) in
    let y_val := add y0_val (mul (Fin (of_int (y0_py - py))) y_scale) in
    (px, py, x_val, y_val) :: convert_rows x0_val y0_val x_scale y_scale x0_px y0_py rest
  end.

Definition convert_points (s : state) : result conversion :=
  if negb (Nat.eqb (List.length (axis_points s)) 4) then Return (Refused msg_four_points) else
  match x0_entry s, x1_entry s, y0_entry s, y1_entry s with
  | Some x0_val, Some x1_val, Some y0_val, Some y1_val =>
    let x0_px := fst (nth 0 (axis_points s) (0, 0)) in
    let x1_px := fst (nth 1 (axis_points s) (0, 0)) in
    let y0_py := snd (nth 2 (axis_points s) (0, 0)) in
    let y1_py := snd (nth 3 (axis_points s) (0, 0)) in
    if (x1_px =? x0_px) || (y0_py =? y1_py) then Return (Refused msg_zero_division) else
    match div (sub x1_val x0_val) (Fin (of_int (x1_px - x0_px))) with
    | Raise e => Raise e
    | Return x_scale =>
      match div (sub y1_val y0_val) (Fin (of_int (y0_py - y1_py))) with
      | Raise e => Raise e
      | Return y_scale =>
        Return (Converted (convert_rows x0_val y0_val x_scale y_scale x0_px y0_py
                             (data_points s)))
      end
    end
  | _, _, _, _ => Return (Refused msg_numeric)
  end.

(** A value handed to the plot: pixel coordinates are [int], calibrated
    ones are [float]. *)
Inductive pynum : Type :=
| PyInt (z : Z)
| PyFloat (f : float).

(** One pass of the first loop of [plot_data]. *)
Definition plot_row (r : row) : pynum * pynum :=
  match row_x r, row_y r with
  | Some cx, Some cy => (PyFloat cx, PyFloat cy)
  | _, _ => (PyInt (row_px r), PyInt (row_py r))
  end.

Inductive plot_result : Type :=
| PlotRefused (msg : string)
| PlotInfo (msg : string)
| Plotted (x_vals y_vals : list pynum).

Definition plot_rows (rows : list (pynum * pynum)) : plot_result :=
  match rows with
  | [] => PlotInfo msg_no_points
  | _ => Plotted (fst (split rows)) (snd (split rows))
  end.

Definition plot_data (s : state) : result plot_result :=
  let rows := map (fun c => plot_row (snd c)) (children (tree s)) in
  match rows, data_points s with
  | [], _ :: _ =>
    match convert_points s with
    | Raise e => Raise e
    | Return (Refused msg) => Return (PlotRefused msg)
    | Return (Converted converted) =>
      Return (plot_rows (rows ++ map (fun c => (PyFloat (snd (fst c)), PyFloat (snd c)))
                                    converted))
    end
  | _, _ => Return (plot_rows rows)
  end.

(** ** Events *)

Inductive axis_entry : Type := X0 | X1 | Y0 | Y1.

(** The user edits one of the axis entries; [v] is what [float()] makes of
    the new text. *)
Definition type_entry (s : state) (which : axis_entry) (v : entry) : state :=
  match which with
  | X0 => set_entries s v (x1_entry s) (y0_entry s) (y1_entry s)
  | X1 => set_entries s (x0_entry s) v (y0_entry s) (y1_entry s)
  | Y0 => set_entries s (x0_entry s) (x1_entry s) v (y1_entry s)
  | Y1 => set_entries s (x0_entry s) (x1_entry s) (y0_entry s) v
  end.

(** The bindings of [__init__], the buttons and the menu. *)
Inductive event : Type :=
| OpenImage (r : option cv_image)
| TypeEntry (which : axis_entry) (v : entry)
| Button1 (x y : Z)
| MouseWheel (x y delta : Z)
| Button4 (x y : Z)
| Button5 (x y : Z)
| ButtonPress2 (x y : Z)
| B2Motion (x y : Z)
| ButtonRelease2
| ShiftButtonPress1 (x y : Z)
| ShiftB1Motion (x y : Z)
| ShiftButtonRelease1
| DeleteSelected (picked : list iid)
| ClearTable
| DoubleClickRow (picked : list iid)
| Reset.

Definition dispatch (s : state) (e : event) : outcome :=
  match e with
  | OpenImage r => Done (load_image s r)
  | TypeEntry which v => Done (type_entry s which v)
  | Button1 x y => on_left_click s x y
  | MouseWheel x y delta => on_zoom s x y delta None
  | Button4 x y => on_zoom s x y 0 (Some 1)
  | Button5 x y => on_zoom s x y 0 (Some (-1))
  | ButtonPress2 x y => Done (start_pan s x y)
  | B2Motion x y => do_pan s x y
  | ButtonRelease2 => Done (end_pan s)
  | ShiftButtonPress1 x y => Done (start_pan_shift s x y)
  | ShiftB1Motion x y => do_pan s x y
  | ShiftButtonRelease1 => Done (end_pan s)
  | DeleteSelected picked => delete_selected s picked
  | ClearTable => Done (clear_table s)
  | DoubleClickRow picked => edit_entry s picked
  | Reset => Done (reset_all s)
  end.

(** Tk reports an exception that leaves a handler and goes on with the next
    event. *)
Definition handle (s : state) (e : event) : state := state_of (dispatch s e).

Definition run (evs : list event) : state := fold_left handle evs init.

(** [cv2.imread] yields an array with at least one row and one column. *)
Definition event_ok (e : event) : Prop :=
  match e with
  | OpenImage (Some img) => 1 <= height img /\ 1 <= width img
  | _ => True
  end.

Inductive reachable : state -> Prop :=
| reachable_init : reachable init
| reachable_step s e : reachable s -> event_ok e -> reachable (handle s e).

(** * Notions of the statements *)

(** ** Availability of the calibration *)

Definition x0_px (s : state) : Z := fst (nth 0 (axis_points s) (0, 0)).
Definition x1_px (s : state) : Z := fst (nth 1 (axis_points s) (0, 0)).
Definition y0_py (s : state) : Z := snd (nth 2 (axis_points s) (0, 0)).
Definition y1_py (s : state) : Z := snd (nth 3 (axis_points s) (0, 0)).

Definition degenerate (s : state) : bool :=
  (x1_px s =? x0_px s) || (y0_py s =? y1_py s).

Definition parses (e : entry) : bool :=
  match e with Some _ => true | None => false end.

Definition parses_finite (e : entry) : bool :=
  match e with Some a => is_finite a | None => false end.

Definition entries_parse (s : state) : bool :=
  parses (x0_entry s) && parses (x1_entry s) && parses (y0_entry s) && parses (y1_entry s).

Definition entries_finite (s : state) : bool :=
  parses_finite (x0_entry s) && parses_finite (x1_entry s)
  && parses_finite (y0_entry s) && parses_finite (y1_entry s).

Definition image_loaded (s : state) : bool :=
  match image s with Some _ => true | None => false end.

(** The conditions under which [compute_calibrated_point] goes past its
    three [return None]. *)
Definition calibration_available (s : state) : bool :=
  image_loaded s && Nat.eqb (List.length (axis_points s)) 4
  && entries_parse s && negb (degenerate s).

(** The predicate of the specification, in its words: exactly 4 axis
    points, all 4 inputs parse as finite numbers, X1.pixelX differs from
    X0.pixelX and Y0.pixelY differs from Y1.pixelY. *)
Definition spec_isAvailable (s : state) : bool :=
  Nat.eqb (List.length (axis_points s)) 4
  && entries_finite s
  && negb (x1_px s =? x0_px s) && negb (y0_py s =? y1_py s).

(** The same with "parse as numbers" read as "[float()] succeeds". *)
Definition spec_isAvailable_parsed (s : state) : bool :=
  Nat.eqb (List.length (axis_points s)) 4
  && entries_parse s
  && negb (x1_px s =? x0_px s) && negb (y0_py s =? y1_py s).

(** ** The table *)

(** The calibrated pair of a stored point, [None] when unavailable. *)
Definition calibrated (s : state) (p : point) : option (float * float) :=
  match compute_calibrated_point s (of_int (fst p)) (of_int (snd p)) with
  | Return calib => calib
  | Raise _ => None
  end.

(** The rows that [refresh_table] inserts. *)
Fixpoint rows_from (s : state) (i : Z) (pts : list point) : list row :=
  match pts with
  | [] => []
  | p :: rest => make_row i (fst p) (snd p) (calibrated s p) :: rows_from s (i + 1) rest
  end.

Definition insert_all (t : treeview) (rows : list row) : treeview :=
  fold_left Tree.insert rows t.

Definition rows (s : state) : list row := map snd (children (tree s)).

(** [enumerate(pts, start=i)] *)
Fixpoint enumerate (i : Z) (pts : list point) : list (Z * point) :=
  match pts with
  | [] => []
  | p :: rest => (i, p) :: enumerate (i + 1) rest
  end.

Definition row_key (r : row) : Z * point := (row_index r, (row_px r, row_py r)).

(** The index column [i, i+1, ...] of [n] rows. *)
Fixpoint indices (i : Z) (n : nat) : list Z :=
  match n with
  | O => []
  | S m => i :: indices (i + 1) m
  end.

(** The table shows the stored data points, numbered from 1. *)
Definition table_consistent (s : state) : Prop :=
  map row_key (rows s) = enumerate 1 (data_points s).

(** ** Invariants of the reachable states *)

Definition in_bounds (img : cv_image) (p : point) : Prop :=
  0 <= fst p <= width img - 1 /\ 0 <= snd p <= height img - 1.

(** What holds of the view and the two point lists. *)
Record points_ok (s : state) : Prop := mkPointsOk {
  ok_scale : (0 < scale s)%Qc;
  ok_axis : (List.length (axis_points s) <= 4)%nat;
  ok_no_image : image s = None -> axis_points s = [] /\ data_points s = [];
  ok_bounds : forall img, image s = Some img ->
                1 <= height img /\ 1 <= width img /\
                Forall (in_bounds img) (axis_points s) /\
                Forall (in_bounds img) (data_points s)
}.

Definition invariant (s : state) : Prop := points_ok s /\ table_consistent s.

(** ** The click *)

(** The image pixel a click at screen position [(event_x, event_y)] stands
    for: [int((event.x - offset_x) / scale)], clamped to the image. *)
Definition clicked_point (s : state) (img : cv_image) (event_x event_y : Z) : point :=
  (Z.max 0 (Z.min (width img - 1) (py_int ((of_int event_x - offset_x s) / scale s)%Qc)),
   Z.max 0 (Z.min (height img - 1) (py_int ((of_int event_y - offset_y s) / scale s)%Qc))).

(** ** Zoom and pan *)

(** The direction [on_zoom] settles on. *)
Definition zoom_delta (event_delta : Z) (delta : option Z) : Z :=
  match delta with
  | None => if event_delta >? 0 then 1 else -1
  | Some d => d
  end.

Definition zoom_factor (event_delta : Z) (delta : option Z) : Qc :=
  if zoom_delta event_delta delta >? 0 then zoom_in_factor else zoom_out_factor.

(** The view that a zoom step leaves, before the table is refreshed. *)
Definition zoomed (s : state) (event_x event_y event_delta : Z) (delta : option Z)
  : state :=
  let mx := of_int event_x in
  let my := of_int event_y in
  let ix_before := ((mx - offset_x s) / scale s)%Qc in
  let iy_before := ((my - offset_y s) / scale s)%Qc in
  let s1 := set_scale s (scale s * zoom_factor event_delta delta)%Qc in
  let s2 := set_offset_x s1 (mx - ix_before * scale s1)%Qc in
  set_offset_y s2 (my - iy_before * scale s2)%Qc.

(** ** Scenarios *)

Definition fin (z : Z) : float := Fin (of_int z).

Definition image_200x100 : cv_image := mkImage 100 200.

(** The end-to-end scenario of the specification up to the axis values:
    a 200 x 100 image, the four axis clicks and the four entries. *)
Definition calibrate_events : list event :=
  [OpenImage (Some image_200x100);
   Button1 10 0; Button1 110 0; Button1 0 80; Button1 0 0;
   TypeEntry X0 (Some (fin 0)); TypeEntry X1 (Some (fin 100));
   TypeEntry Y0 (Some (fin 0)); TypeEntry Y1 (Some (fin 100))].

Definition calibrated_state : state := run calibrate_events.

(** An infinite X0 value: the texts "inf", "100", "0", "100". *)
Definition infinite_events : list event :=
  [OpenImage (Some image_200x100);
   Button1 10 0; Button1 110 0; Button1 0 80; Button1 0 0;
   TypeEntry X0 (Some (Inf false)); TypeEntry X1 (Some (fin 100));
   TypeEntry Y0 (Some (fin 0)); TypeEntry Y1 (Some (fin 100))].

Definition imageless_state : state :=
  mkState None 1%Qc 0%Qc 0%Qc None [(10, 0); (110, 0); (0, 80); (0, 0)] [] false
    (Some (fin 0)) (Some (fin 100)) (Some (fin 0)) (Some (fin 100)) Tree.empty.

(** X0 and X1 clicked on the same pixel column. *)
Definition degenerate_events : list event :=
  [OpenImage (Some image_200x100);
   Button1 10 0; Button1 10 50; Button1 0 80; Button1 0 0;
   TypeEntry X0 (Some (fin 0)); TypeEntry X1 (Some (fin 100));
   TypeEntry Y0 (Some (fin 0)); TypeEntry Y1 (Some (fin 100));
   Button1 60 40].

(** A data point clicked before the axis values are typed, another one
    after. *)
Definition mixed_events : list event :=
  [OpenImage (Some image_200x100);
   Button1 10 0; Button1 110 0; Button1 0 80; Button1 0 0;
   Button1 60 40;
   TypeEntry X0 (Some (fin 0)); TypeEntry X1 (Some (fin 100));
   TypeEntry Y0 (Some (fin 0)); TypeEntry Y1 (Some (fin 100));
   Button1 20 30].

(** Three data points, the second one deleted, then a zoom and a pan. *)
Definition table_events : list event :=
  calibrate_events ++
  [Button1 60 40; Button1 20 30; Button1 5 5;
   DeleteSelected [1%nat];
   MouseWheel 50 50 120;
   ButtonPress2 10 10; B2Motion 30 5; ButtonRelease2].

(** ** Equalities decided by evaluation *)

Ltac qc_eq := apply Qc_is_canon; vm_compute; reflexivity.

(** Equality of calibration results decided by evaluation. *)
Definition float_eqb (a b : float) : bool :=
  match a, b with
  | Fin x, Fin y => Qc_eq_bool x y
  | Inf s, Inf t => Bool.eqb s t
  | NaN, NaN => true
  | _, _ => false
  end.

Definition calib_eqb (a b : result (option (float * float))) : bool :=
  match a, b with
  | Return None, Return None => true
  | Return (Some (x, y)), Return (Some (x', y')) => float_eqb x x' && float_eqb y y'
  | _, _ => false
  end.

(** ** The view transform *)


(** ** What the plot receives *)

Definition is_calibrated_pair (p : pynum * pynum) : bool :=
  match p with (PyFloat _, PyFloat _) => true | _ => false end.

Definition is_pixel_pair (p : pynum * pynum) : bool :=
  match p with (PyInt _, PyInt _) => true | _ => false end.

(** All pairs calibrated, or all pairs pixel pairs. *)
Definition uniform (l : list (pynum * pynum)) : bool :=
  forallb is_calibrated_pair l || forallb is_pixel_pair l.

Definition pynum_value (n : pynum) : option Q :=
  match n with
  | PyInt z => Some (inject_Z z)
  | PyFloat (Fin q) => Some (this q)
  | PyFloat _ => None
  end.

(** * The rest of the program *)

(** ** The status bar *)

(** [round(x)] on a finite float: the nearest integer, a tie going to the
    even one. *)
Definition py_round (x : Qc) : Z :=
  let f := Qfloor x in
  match (x - inject_Z f ?= 1 # 2)%Q with
  | Lt => f
  | Gt => f + 1
  | Eq => if Z.even f then f else f + 1
  end.

(** The two arguments of [update_status]; a label shows "-, -" for [None]. *)
Record status : Type := mkStatus {
  pixel_tuple : option (Z * Z);
  calib_tuple : option (float * float)
}.

(** [on_mouse_move]: what it hands to [update_status]. *)
Definition on_mouse_move (s : state) (event_x event_y : Z) : result status :=
  match image s with
  | None => Return (mkStatus None None)
  | Some img =>
    match truediv (of_int event_x - offset_x s)%Qc (scale s) with
    | Raise e => Raise e
    | Return img_x =>
      match truediv (of_int event_y - offset_y s)%Qc (scale s) with
      | Raise e => Raise e
      | Return img_y =>
        let px := Z.max 0 (Z.min (width img - 1) (py_round img_x)) in
        let py := Z.max 0 (Z.min (height img - 1) (py_round img_y)) in
        match compute_calibrated_point s img_x img_y with
        | Raise e => Raise e
        | Return calib => Return (mkStatus (Some (px, py)) calib)
        end
      end
    end
  end.

(** ** The canvas *)

Inductive colour : Type := Cyan | Red.

Inductive canvas_item : Type :=
| ImageItem (x y : Qc) (new_w new_h : Z)
| TextItem (x y : Z) (text : string)
| OvalItem (x0 y0 x1 y1 : Z) (outline : colour) (filled : bool).

(** [['X0', 'X1', 'Y0', 'Y1'][i] if i < 4 else str(i)] *)
Definition axis_label (i : nat) : string :=
  if Nat.ltb i 4
  then nth i ["X0"%string; "X1"%string; "Y0"%string; "Y1"%string] EmptyString
  else NilEmpty.string_of_uint (Nat.to_uint i).

(** [(sx, sy)]: where [draw_image] puts the marker of a stored point. *)
Definition marker_position (s : state) (p : point) : Z * Z :=
  (py_int (of_int (fst p) * scale s + offset_x s)%Qc,
   py_int (of_int (snd p) * scale s + offset_y s)%Qc).

(** The first marker loop of [draw_image]: [enumerate(self.axis_points)],
    here from [i] on. *)
Fixpoint draw_axis_markers (s : state) (i : nat) (pts : list point) : list canvas_item :=
  match pts with
  | [] => []
  | p :: rest =>
    let sx := fst (marker_position s p) in
    let sy := snd (marker_position s p) in
    TextItem (sx + 6) (sy - 6) (axis_label i)
    :: OvalItem (sx - 4) (sy - 4) (sx + 4) (sy + 4) Cyan false
    :: draw_axis_markers s (S i) rest
  end.

(** The second marker loop. *)
Definition draw_data_marker (s : state) (p : point) : canvas_item :=
  let sx := fst (marker_position s p) in
  let sy := snd (marker_position s p) in
  OvalItem (sx - 3) (sy - 3) (sx + 3) (sy + 3) Red true.

(** [draw_image]: the items it puts on the emptied canvas, [None] when it
    returns before touching the canvas. *)
Definition draw_image (s : state) : option (list canvas_item) :=
  match image s with
  | None => None
  | Some img =>
    let new_w := py_int (of_int (width img) * scale s)%Qc in
    let new_h := py_int (of_int (height img) * scale s)%Qc in
    if (new_w <? 1) || (new_h <? 1) then None
    else Some (ImageItem (offset_x s) (offset_y s) new_w new_h
               :: draw_axis_markers s 0 (axis_points s)
               ++ map (draw_data_marker s) (data_points s))
  end.

(** ** Export *)

Definition msg_no_export : string := "No points to export.".

Definition csv_header : list string :=
  ["PixelX"%string; "PixelY"%string; "CalibX"%string; "CalibY"%string].

(** One line of the file: [(px, py, cx, cy)], an empty cell for [None]. *)
Definition csv_line : Type := (Z * Z * option float * option float)%type.

(** One pass of the first loop of [export_csv]. *)
Definition export_row (r : row) : csv_line := (row_px r, row_py r, row_x r, row_y r).

Inductive export_result : Type :=
| ExportRefused (msg : string)
| ExportInfo (msg : string)
| ExportCancelled
| ExportSaved (path : string) (header : list string) (lines : list csv_line) (count : nat)
| ExportFailed (msg : string).

(** The end of [export_csv], once [rows] is known: [path] is what the save
    dialog returned ([None] when cancelled), [write_error] the text of the
    exception that opening or writing the file raised, if any. *)
Definition export_rows (rows : list csv_line) (path : option string)
    (write_error : option string) : export_result :=
  match rows with
  | [] => ExportInfo msg_no_export
  | _ =>
    match path with
    | None => ExportCancelled
    | Some file =>
      match write_error with
      | Some msg => ExportFailed msg
      | None => ExportSaved file csv_header rows (List.length rows)
      end
    end
  end.

Definition export_csv (s : state) (path : option string) (write_error : option string)
  : result export_result :=
  let rows := map (fun c => export_row (snd c)) (children (tree s)) in
  match rows, data_points s with
  | [], _ :: _ =>
    match convert_points s with
    | Raise e => Raise e
    | Return (Refused msg) => Return (ExportRefused msg)
    | Return (Converted converted) =>
      Return (export_rows
                (rows ++ map (fun c => (fst (fst (fst c)), snd (fst (fst c)),
                                        Some (snd (fst c)), Some (snd c))) converted)
                path write_error)
    end
  | _, _ => Return (export_rows rows path write_error)
  end.

(** * Notions of the further properties *)



(** The columns of a row of [convert_points]. *)
Definition converted_pixel (r : Z * Z * float * float) : point :=
  (fst (fst (fst r)), snd (fst (fst r))).

Definition converted_value (r : Z * Z * float * float) : float * float :=
  (snd (fst r), snd r).

(** The events that only concern the view: wheel, and the presses, drags
    and releases of the two pans. *)
Definition view_event (e : event) : bool :=
  match e with
  | MouseWheel _ _ _ | Button4 _ _ | Button5 _ _
  | ButtonPress2 _ _ | B2Motion _ _ | ButtonRelease2
  | ShiftButtonPress1 _ _ | ShiftB1Motion _ _ | ShiftButtonRelease1 => true
  | _ => false
  end.

(** [s'] has the image, the points and the entries of [s]. *)
Definition same_points (s s' : state) : Prop :=
  image s' = image s /\ axis_points s' = axis_points s
  /\ data_points s' = data_points s
  /\ x0_entry s' = x0_entry s /\ x1_entry s' = x1_entry s
  /\ y0_entry s' = y0_entry s /\ y1_entry s' = y1_entry s.

(** The view that a drag to [(event_x, event_y)] leaves, before the table
    is refreshed. *)
Definition panned (s : state) (start : Z * Z) (event_x event_y : Z) : state :=
  let s1 := set_offset_x s (offset_x s + of_int (event_x - fst start))%Qc in
  let s2 := set_offset_y s1 (offset_y s1 + of_int (event_y - snd start))%Qc in
  set_drag_start s2 (Some (event_x, event_y)).

(** The pixel columns of a line of the exported file. *)
Definition line_pixel (l : csv_line) : point :=
  (fst (fst (fst l)), snd (fst (fst l))).

(** The rows that [delete_selected] leaves when the user has highlighted
    the items [picked]. *)
Definition unpicked (picked : list iid) (c : iid * row) : bool :=
  negb (existsb (Nat.eqb (fst c)) picked).

(** The events that end a pan started with Shift held. *)
Definition ends_shift_pan (e : event) : bool :=
  match e with
  | ButtonPress2 _ _ | ButtonRelease2 | ShiftButtonRelease1 | Reset => true
  | _ => false
  end.

(** The texts among the items of the canvas, in drawing order. *)
Definition item_texts (items : list canvas_item) : list string :=
  flat_map (fun it => match it with TextItem _ _ text => [text] | _ => [] end) items.

Definition is_oval (it : canvas_item) : bool :=
  match it with OvalItem _ _ _ _ _ _ => true | _ => false end.

(** * Properties *)

(** ** Numbers *)

Lemma of_int_eq_zero (z : Z) : of_int z = 0%Qc -> z = 0.
Proof.
  unfold of_int. intros H. apply Q2Qc_eq_iff in H.
  unfold Qeq in H. simpl in H. lia.
Qed.

Lemma is_zero_of_int (z : Z) : z <> 0 -> is_zero (of_int z) = false.
Proof.
  intros Hz. unfold is_zero.
  destruct (Qc_eq_bool (of_int z) 0%Qc) eqn:E; [|reflexivity].
  apply Qc_eq_bool_correct in E. apply of_int_eq_zero in E. contradiction.
Qed.

(** A float divided by a non-zero [int] is a float: no exception. *)
Lemma div_by_int (a : float) (z : Z) :
  z <> 0 -> exists q, div a (Fin (of_int z)) = Return q.
Proof.
  intros Hz. unfold div.
  destruct a; rewrite (is_zero_of_int z Hz); eauto.
Qed.

Lemma div_fin (x y : Qc) :
  y <> 0%Qc -> div (Fin x) (Fin y) = Return (Fin (x / y)%Qc).
Proof.
  intros Hy. unfold div, is_zero.
  destruct (Qc_eq_bool y 0%Qc) eqn:E; [|reflexivity].
  apply Qc_eq_bool_correct in E. contradiction.
Qed.

Lemma truediv_nonzero (a b : Qc) :
  b <> 0%Qc -> truediv a b = Return (a / b)%Qc.
Proof.
  intros Hb. unfold truediv. destruct (Qc_eq_dec b 0%Qc); [contradiction|reflexivity].
Qed.

Lemma Qc_pos_nonzero (x : Qc) : (0 < x)%Qc -> x <> 0%Qc.
Proof.
  intros H E. rewrite E in H. exact (Qlt_irrefl _ H).
Qed.

Lemma Qcmult_pos (x y : Qc) : (0 < x)%Qc -> (0 < y)%Qc -> (0 < x * y)%Qc.
Proof.
  intros Hx Hy.
  replace 0%Qc with (0 * y)%Qc by apply Qcmult_0_l.
  apply Qcmult_lt_compat_r; assumption.
Qed.

Lemma zoom_in_factor_pos : (0 < zoom_in_factor)%Qc.
Proof. reflexivity. Qed.

Lemma zoom_out_factor_pos : (0 < zoom_out_factor)%Qc.
Proof. reflexivity. Qed.

(** ** Calibration *)

Lemma compute_unavailable (s : state) (img_x img_y : Qc) :
  calibration_available s = false ->
  compute_calibrated_point s img_x img_y = Return None.
Proof.
  unfold calibration_available, image_loaded, entries_parse, degenerate,
    compute_calibrated_point, x0_px, x1_px, y0_py, y1_py.
  intros H. destruct (image s); [|reflexivity].
  destruct (Nat.eqb (List.length (axis_points s)) 4); [|reflexivity].
  destruct (x0_entry s), (x1_entry s), (y0_entry s), (y1_entry s);
    try reflexivity.
  simpl in H. apply negb_false_iff in H. simpl. rewrite H. reflexivity.
Qed.

Lemma compute_available (s : state) (img_x img_y : Qc) :
  calibration_available s = true ->
  exists x_val y_val,
    compute_calibrated_point s img_x img_y = Return (Some (x_val, y_val)).
Proof.
  unfold calibration_available, image_loaded, entries_parse, degenerate,
    compute_calibrated_point, x0_px, x1_px, y0_py, y1_py.
  intros H. destruct (image s); [|discriminate].
  destruct (Nat.eqb (List.length (axis_points s)) 4); [|discriminate].
  destruct (x0_entry s) as [x0_val|], (x1_entry s) as [x1_val|],
    (y0_entry s) as [y0_val|], (y1_entry s) as [y1_val|]; try discriminate.
  simpl in H. apply negb_true_iff in H. simpl. rewrite H.
  apply orb_false_iff in H. destruct H as [Hx Hy].
  apply Z.eqb_neq in Hx. apply Z.eqb_neq in Hy.
  destruct (div_by_int (sub x1_val x0_val)
              (fst (nth 1 (axis_points s) (0, 0)) - fst (nth 0 (axis_points s) (0, 0))))
    as [x_scale Ex]; [lia|].
  destruct (div_by_int (sub y1_val y0_val)
              (snd (nth 2 (axis_points s) (0, 0)) - snd (nth 3 (axis_points s) (0, 0))))
    as [y_scale Ey]; [lia|].
  rewrite Ex, Ey. eauto.
Qed.

(** No exception leaves [compute_calibrated_point]. *)
Lemma compute_returns (s : state) (img_x img_y : Qc) :
  exists calib, compute_calibrated_point s img_x img_y = Return calib.
Proof.
  destruct (calibration_available s) eqn:E.
  - destruct (compute_available s img_x img_y E) as (x & y & H). eauto.
  - rewrite (compute_unavailable s img_x img_y E). eauto.
Qed.

(** The result depends on the image, the axis points and the entries only. *)
Lemma compute_ext (s s' : state) (img_x img_y : Qc) :
  image_loaded s = image_loaded s' ->
  axis_points s = axis_points s' ->
  x0_entry s = x0_entry s' -> x1_entry s = x1_entry s' ->
  y0_entry s = y0_entry s' -> y1_entry s = y1_entry s' ->
  compute_calibrated_point s img_x img_y = compute_calibrated_point s' img_x img_y.
Proof.
  unfold compute_calibrated_point, image_loaded.
  intros Hi Ha H0 H1 H2 H3. rewrite Ha, H0, H1, H2, H3.
  destruct (image s), (image s'); try discriminate; reflexivity.
Qed.

(** ** The table *)

Lemma compute_calibrated (s : state) (px py : Z) :
  compute_calibrated_point s (of_int px) (of_int py) = Return (calibrated s (px, py)).
Proof.
  unfold calibrated. simpl.
  destruct (compute_returns s (of_int px) (of_int py)) as [c E].
  rewrite E. reflexivity.
Qed.

Lemma calibrated_set_tree (s : state) (t : treeview) (p : point) :
  calibrated (set_tree s t) p = calibrated s p.
Proof.
  unfold calibrated. now rewrite (compute_ext (set_tree s t) s).
Qed.

Lemma rows_from_set_tree (s : state) (t : treeview) (pts : list point) (i : Z) :
  rows_from (set_tree s t) i pts = rows_from s i pts.
Proof.
  revert i. induction pts as [|p rest IH]; intros i; simpl.
  - reflexivity.
  - now rewrite calibrated_set_tree, IH.
Qed.

Lemma refresh_rows_done (pts : list point) :
  forall (s : state) (i : Z),
    refresh_rows s i pts = Done (set_tree s (insert_all (tree s) (rows_from s i pts))).
Proof.
  induction pts as [|[px py] rest IH]; intros s i; simpl.
  - now destruct s.
  - rewrite compute_calibrated, IH, rows_from_set_tree. reflexivity.
Qed.

Lemma refresh_table_done (s : state) :
  refresh_table s =
  Done (set_tree s (insert_all (Tree.delete_all (tree s)) (rows_from s 1 (data_points s)))).
Proof.
  unfold refresh_table. rewrite refresh_rows_done, rows_from_set_tree. reflexivity.
Qed.

Lemma children_insert_all (rs : list row) :
  forall t : treeview,
    map snd (children (insert_all t rs)) = map snd (children t) ++ rs.
Proof.
  induction rs as [|r rs IH]; intros t.
  - simpl. now rewrite app_nil_r.
  - change (insert_all t (r :: rs)) with (insert_all (Tree.insert t r) rs).
    rewrite IH. simpl. rewrite map_app, <- app_assoc. reflexivity.
Qed.

Lemma row_key_make_row (i px py : Z) (c : option (float * float)) :
  row_key (make_row i px py c) = (i, (px, py)).
Proof. destruct c as [[x y]|]; reflexivity. Qed.

Lemma rows_from_keys (s : state) (pts : list point) :
  forall i, map row_key (rows_from s i pts) = enumerate i pts.
Proof.
  induction pts as [|[px py] rest IH]; intros i; simpl.
  - reflexivity.
  - now rewrite row_key_make_row, IH.
Qed.

Lemma enumerate_app (l : list point) (p : point) :
  forall i,
    enumerate i (l ++ [p]) = enumerate i l ++ [(i + Z.of_nat (List.length l), p)].
Proof.
  induction l as [|q l IH]; intros i.
  - simpl. now rewrite Z.add_0_r.
  - cbn [enumerate app List.length]. rewrite IH, Nat2Z.inj_succ.
    replace (i + 1 + Z.of_nat (List.length l)) with (i + Z.succ (Z.of_nat (List.length l)))
      by lia.
    reflexivity.
Qed.

Lemma enumerate_length (l : list point) :
  forall i, List.length (enumerate i l) = List.length l.
Proof. induction l as [|q l IH]; intros i; simpl; [reflexivity|now rewrite IH]. Qed.

Lemma enumerate_points (l : list point) :
  forall i, map snd (enumerate i l) = l.
Proof. induction l as [|q l IH]; intros i; simpl; [reflexivity|now rewrite IH]. Qed.

Lemma enumerate_indices (l : list point) :
  forall i, map fst (enumerate i l) = indices i (List.length l).
Proof. induction l as [|q l IH]; intros i; simpl; [reflexivity|now rewrite IH]. Qed.

Lemma refresh_table_consistent (s : state) :
  table_consistent (state_of (refresh_table s)).
Proof.
  rewrite refresh_table_done. unfold table_consistent, rows. simpl.
  rewrite children_insert_all. simpl. apply rows_from_keys.
Qed.

(** ** Invariants of the reachable states *)

Lemma clamp_in_range (hi v : Z) : 1 <= hi -> 0 <= Z.max 0 (Z.min (hi - 1) v) <= hi - 1.
Proof. lia. Qed.

Lemma Forall_sub {A : Type} (P : A -> Prop) (l l' : list A) :
  (forall x, In x l' -> In x l) -> Forall P l -> Forall P l'.
Proof.
  intros Hin H. apply Forall_forall. intros x Hx.
  rewrite Forall_forall in H. auto.
Qed.

Lemma sub_nil {A : Type} (l : list A) : (forall x, In x l -> In x []) -> l = [].
Proof.
  destruct l as [|a l]; [reflexivity|]. intros H. destruct (H a). now left.
Qed.

Lemma points_ok_sub (s : state) (pts : list point) :
  (forall p, In p pts -> In p (data_points s)) ->
  points_ok s -> points_ok (set_data_points s pts).
Proof.
  intros Hsub [Hs Ha Hn Hb]. split; simpl; auto.
  - intros E. destruct (Hn E) as [E1 E2]. split; [assumption|].
    apply sub_nil. now rewrite <- E2.
  - intros img E. destruct (Hb img E) as (H1 & H2 & H3 & H4).
    repeat split; try assumption. now apply (Forall_sub _ (data_points s)).
Qed.

Lemma points_ok_set_tree (s : state) (t : treeview) :
  points_ok s -> points_ok (set_tree s t).
Proof. intros [Hs Ha Hn Hb]. split; simpl; auto. Qed.

Lemma invariant_refresh (s : state) :
  points_ok s -> invariant (state_of (refresh_table s)).
Proof.
  intros H. split; [|apply refresh_table_consistent].
  rewrite refresh_table_done. simpl state_of. now apply points_ok_set_tree.
Qed.

Lemma table_points (s : state) :
  table_consistent s -> map row_point (children (tree s)) = data_points s.
Proof.
  unfold table_consistent, rows. intros H.
  rewrite <- (enumerate_points (data_points s) 1), <- H, !map_map. reflexivity.
Qed.

Lemma children_delete_sub (sel : list iid) :
  forall (t : treeview) (c : iid * row),
    In c (children (fold_left Tree.delete sel t)) -> In c (children t).
Proof.
  induction sel as [|i sel IH]; intros t c H; simpl in H.
  - assumption.
  - apply IH in H. simpl in H. apply filter_In in H. tauto.
Qed.

Lemma list_remove_sub (p : point) (l : list point) :
  forall q, In q (list_remove p l) -> In q l.
Proof.
  induction l as [|a l IH]; intros q H; simpl in *.
  - assumption.
  - destruct (point_eqb a p); [now right|].
    destruct H as [H|H]; [now left|right; auto].
Qed.

Lemma invariant_init : invariant init.
Proof.
  split; [split|]; simpl; auto.
  - reflexivity.
  - discriminate.
  - reflexivity.
Qed.

(** ** The click *)

Lemma clicked_point_in_bounds (s : state) (img : cv_image) (event_x event_y : Z) :
  1 <= height img -> 1 <= width img ->
  in_bounds img (clicked_point s img event_x event_y).
Proof.
  intros Hh Hw. unfold in_bounds, clicked_point. simpl. split; now apply clamp_in_range.
Qed.

Lemma on_left_click_ignored (s : state) (event_x event_y : Z) :
  panning_by_shift s = true \/ image s = None ->
  on_left_click s event_x event_y = Done s.
Proof.
  unfold on_left_click. intros [H|H]; rewrite H; [reflexivity|].
  now destruct (panning_by_shift s).
Qed.

Lemma on_left_click_axis (s : state) (img : cv_image) (event_x event_y : Z) :
  panning_by_shift s = false -> image s = Some img -> scale s <> 0%Qc ->
  (List.length (axis_points s) < 4)%nat ->
  on_left_click s event_x event_y =
  Done (set_axis_points s (axis_points s ++ [clicked_point s img event_x event_y])).
Proof.
  intros Hp Hi Hs Hn. unfold on_left_click.
  rewrite Hp, Hi, !truediv_nonzero by assumption.
  apply Nat.ltb_lt in Hn. rewrite Hn. reflexivity.
Qed.

Lemma on_left_click_data (s : state) (img : cv_image) (event_x event_y : Z) :
  panning_by_shift s = false -> image s = Some img -> scale s <> 0%Qc ->
  (4 <= List.length (axis_points s))%nat ->
  let p := clicked_point s img event_x event_y in
  let s1 := set_data_points s (data_points s ++ [p]) in
  on_left_click s event_x event_y =
  Done (set_tree s1 (Tree.insert (tree s)
          (make_row (Z.of_nat (List.length (data_points s)) + 1) (fst p) (snd p)
                    (calibrated s1 p)))).
Proof.
  intros Hp Hi Hs Hn p s1. unfold on_left_click.
  rewrite Hp, Hi, !truediv_nonzero by assumption.
  apply Nat.ltb_ge in Hn. rewrite Hn.
  fold (clicked_point s img event_x event_y). fold p. fold s1.
  change (Z.max 0 (Z.min (width img - 1) (py_int ((of_int event_x - offset_x s) / scale s)%Qc)))
    with (fst p).
  change (Z.max 0 (Z.min (height img - 1) (py_int ((of_int event_y - offset_y s) / scale s)%Qc)))
    with (snd p).
  rewrite compute_calibrated. rewrite <- surjective_pairing.
  unfold s1. cbn [data_points set_data_points tree].
  rewrite length_app, Nat2Z.inj_add. reflexivity.
Qed.

Lemma invariant_on_left_click (s : state) (event_x event_y : Z) :
  invariant s -> invariant (state_of (on_left_click s event_x event_y)).
Proof.
  intros Hinv. pose proof Hinv as [[Hs Ha Hn Hb] Ht].
  destruct (panning_by_shift s) eqn:Hp.
  { now rewrite on_left_click_ignored by now left. }
  destruct (image s) as [img|] eqn:Hi.
  2:{ now rewrite on_left_click_ignored by now right. }
  destruct (Hb img eq_refl) as (Hh & Hw & Hax & Hda).
  pose proof (clicked_point_in_bounds s img event_x event_y Hh Hw) as Hin.
  destruct (Nat.ltb_spec (List.length (axis_points s)) 4) as [Hlt|Hge].
  - rewrite (on_left_click_axis s img) by auto using Qc_pos_nonzero.
    split; [split|]; simpl; auto.
    + rewrite length_app. simpl. lia.
    + congruence.
    + intros img' E. rewrite Hi in E. injection E as <-.
      repeat split; auto. apply Forall_app. split; auto.
  - rewrite (on_left_click_data s img) by auto using Qc_pos_nonzero.
    split; [split|]; simpl; auto.
    + congruence.
    + intros img' E. rewrite Hi in E. injection E as <-.
      repeat split; auto. apply Forall_app. split; auto.
    + unfold table_consistent, rows in *. simpl.
      rewrite !map_app, Ht, enumerate_app. cbn [map snd].
      rewrite row_key_make_row, Z.add_comm. reflexivity.
Qed.

(** ** Zoom and pan *)

Lemma zoom_factor_pos (event_delta : Z) (delta : option Z) :
  (0 < zoom_factor event_delta delta)%Qc.
Proof.
  unfold zoom_factor. destruct (zoom_delta event_delta delta >? 0);
    [apply zoom_in_factor_pos | apply zoom_out_factor_pos].
Qed.

Lemma on_zoom_no_image (s : state) (event_x event_y event_delta : Z) (delta : option Z) :
  image s = None -> on_zoom s event_x event_y event_delta delta = Done s.
Proof. unfold on_zoom. now intros ->. Qed.

Lemma on_zoom_image (s : state) (event_x event_y event_delta : Z) (delta : option Z) :
  image s <> None -> scale s <> 0%Qc ->
  on_zoom s event_x event_y event_delta delta =
  refresh_table (zoomed s event_x event_y event_delta delta).
Proof.
  intros Hi Hs. unfold on_zoom. destruct (image s); [|contradiction].
  rewrite !truediv_nonzero by assumption. reflexivity.
Qed.

Lemma invariant_on_zoom (s : state) (event_x event_y event_delta : Z) (delta : option Z) :
  invariant s -> invariant (state_of (on_zoom s event_x event_y event_delta delta)).
Proof.
  intros Hinv. pose proof Hinv as [[Hs Ha Hn Hb] Ht].
  destruct (image s) as [img|] eqn:Hi.
  2:{ now rewrite on_zoom_no_image. }
  rewrite on_zoom_image by (try congruence; auto using Qc_pos_nonzero).
  apply invariant_refresh. split; simpl; rewrite ?Hi; auto.
  apply Qcmult_pos; [assumption | apply zoom_factor_pos].
Qed.

Lemma do_pan_idle (s : state) (event_x event_y : Z) :
  drag_start s = None -> do_pan s event_x event_y = Done s.
Proof. unfold do_pan. now intros ->. Qed.

Lemma invariant_do_pan (s : state) (event_x event_y : Z) :
  invariant s -> invariant (state_of (do_pan s event_x event_y)).
Proof.
  intros Hinv. pose proof Hinv as [[Hs Ha Hn Hb] Ht].
  unfold do_pan. destruct (drag_start s) as [[start_x start_y]|]; [|assumption].
  apply invariant_refresh. split; simpl; auto.
Qed.

(** ** Deleting rows *)

Lemma invariant_delete_selected (s : state) (picked : list iid) :
  invariant s -> invariant (state_of (delete_selected s picked)).
Proof.
  intros Hinv. pose proof Hinv as [Hok Ht].
  unfold delete_selected.
  destruct (Tree.selection (tree s) picked) as [|i sel]; [assumption|].
  apply invariant_refresh.
  apply (points_ok_sub (set_tree s (fold_left Tree.delete (i :: sel) (tree s)))).
  - intros p Hp. simpl data_points. rewrite <- (table_points s Ht).
    apply in_map_iff in Hp. destruct Hp as (c & <- & Hc).
    apply in_map. now apply children_delete_sub in Hc.
  - now apply points_ok_set_tree.
Qed.

Lemma invariant_edit_entry (s : state) (picked : list iid) :
  invariant s -> invariant (state_of (edit_entry s picked)).
Proof.
  intros Hinv. pose proof Hinv as [Hok Ht].
  unfold edit_entry.
  destruct (Tree.selection (tree s) picked) as [|i sel]; [assumption|].
  destruct (Tree.item (tree s) i) as [vals|]; [|assumption].
  apply invariant_refresh. apply points_ok_set_tree.
  apply points_ok_sub; [|assumption]. apply list_remove_sub.
Qed.

Lemma invariant_clear_table (s : state) : invariant s -> invariant (clear_table s).
Proof.
  intros [[Hs Ha Hn Hb] Ht]. split; [split|]; simpl; auto.
  - intros E. split; [now apply Hn|reflexivity].
  - intros img E. destruct (Hb img E) as (H1 & H2 & H3 & H4). auto.
  - reflexivity.
Qed.

Lemma invariant_reset_all (s : state) : invariant s -> invariant (reset_all s).
Proof.
  intros [[Hs Ha Hn Hb] Ht]. split; [split|]; simpl; auto.
  - reflexivity.
  - intros img E. destruct (Hb img E) as (H1 & H2 & H3 & H4). auto.
  - reflexivity.
Qed.

Lemma invariant_load_image (s : state) (r : option cv_image) :
  event_ok (OpenImage r) -> invariant s -> invariant (load_image s r).
Proof.
  intros Hr Hinv. destruct r as [img|]; [|assumption].
  simpl in Hr. split; [split|]; simpl; auto.
  - reflexivity.
  - intros img' E. injection E as <-. intuition.
  - reflexivity.
Qed.

Lemma invariant_type_entry (s : state) (which : axis_entry) (v : entry) :
  invariant s -> invariant (type_entry s which v).
Proof.
  intros [[Hs Ha Hn Hb] Ht]. destruct which; (split; [split|]; simpl; auto).
Qed.

Lemma invariant_drag (s : state) (d : option (Z * Z)) (b : bool) :
  invariant s -> invariant (set_panning_by_shift (set_drag_start s d) b).
Proof. intros [[Hs Ha Hn Hb] Ht]. split; [split|]; simpl; auto. Qed.

Theorem invariant_handle (s : state) (e : event) :
  event_ok e -> invariant s -> invariant (handle s e).
Proof.
  intros He Hinv. unfold handle. destruct e; simpl dispatch.
  - now apply invariant_load_image.
  - now apply invariant_type_entry.
  - now apply invariant_on_left_click.
  - now apply invariant_on_zoom.
  - now apply invariant_on_zoom.
  - now apply invariant_on_zoom.
  - now apply invariant_drag.
  - now apply invariant_do_pan.
  - now apply invariant_drag.
  - now apply invariant_drag.
  - now apply invariant_do_pan.
  - now apply invariant_drag.
  - now apply invariant_delete_selected.
  - now apply invariant_clear_table.
  - now apply invariant_edit_entry.
  - now apply invariant_reset_all.
Qed.

Theorem reachable_invariant (s : state) : reachable s -> invariant s.
Proof.
  induction 1 as [|s e _ IH He].
  - apply invariant_init.
  - now apply invariant_handle.
Qed.

(** The states reached by a list of events. *)
Lemma reachable_fold (evs : list event) :
  forall s, reachable s -> Forall event_ok evs -> reachable (fold_left handle evs s).
Proof.
  induction evs as [|e evs IH]; intros s Hs Hok; simpl.
  - assumption.
  - inversion Hok; subst. apply IH; [now constructor|assumption].
Qed.

Lemma reachable_run (evs : list event) : Forall event_ok evs -> reachable (run evs).
Proof. apply reachable_fold. constructor. Qed.


(** ** Scenarios *)

Lemma calibrate_events_ok : Forall event_ok calibrate_events.
Proof. repeat constructor; simpl; lia. Qed.

Lemma calibrated_state_reachable : reachable calibrated_state.
Proof. apply reachable_run, calibrate_events_ok. Qed.

Lemma infinite_events_ok : Forall event_ok infinite_events.
Proof. repeat constructor; simpl; lia. Qed.

Lemma mixed_events_ok : Forall event_ok mixed_events.
Proof. repeat constructor; simpl; lia. Qed.

Lemma table_events_ok : Forall event_ok table_events.
Proof. repeat constructor; simpl; lia. Qed.

Lemma float_eqb_eq (a b : float) : float_eqb a b = true -> a = b.
Proof.
  destruct a as [x|s|], b as [y|t|]; simpl; try discriminate; intros H.
  - now rewrite (Qc_eq_bool_correct x y H).
  - now rewrite (eqb_prop s t H).
  - reflexivity.
Qed.

Lemma calib_eqb_eq (a b : result (option (float * float))) :
  calib_eqb a b = true -> a = b.
Proof.
  destruct a as [[[x y]|]|e], b as [[[x' y']|]|e']; simpl; try discriminate.
  - intros H. apply andb_prop in H. destruct H as [Hx Hy].
    now rewrite (float_eqb_eq _ _ Hx), (float_eqb_eq _ _ Hy).
  - reflexivity.
Qed.

(** ** The view transform *)



(** In a reachable state the axis points of an image that is not there
    cannot exist, so the program's test and the specification's predicate
    (with "parse" for "parse as finite") agree. *)
Lemma reachable_available (s : state) :
  reachable s -> calibration_available s = spec_isAvailable_parsed s.
Proof.
  intros Hr. apply reachable_invariant in Hr. destruct Hr as [[_ _ Hn _] _].
  unfold calibration_available, spec_isAvailable_parsed, degenerate, image_loaded.
  fold (x0_px s) (x1_px s) (y0_py s) (y1_py s).
  destruct (image s).
  - simpl. now rewrite negb_orb, !andb_assoc.
  - destruct (Hn eq_refl) as [-> _]. reflexivity.
Qed.

(** ** What the plot receives *)

Lemma calibrated_some (s : state) (p : point) :
  calibration_available s = true -> exists x y, calibrated s p = Some (x, y).
Proof.
  intros H. unfold calibrated.
  destruct (compute_available s (of_int (fst p)) (of_int (snd p)) H) as (x & y & E).
  rewrite E. eauto.
Qed.

Lemma calibrated_none (s : state) (p : point) :
  calibration_available s = false -> calibrated s p = None.
Proof.
  intros H. unfold calibrated. now rewrite compute_unavailable.
Qed.

Lemma rows_from_uniform (s : state) (pts : list point) :
  forall i, uniform (map plot_row (rows_from s i pts)) = true.
Proof.
  unfold uniform. destruct (calibration_available s) eqn:E; intros i.
  - apply orb_true_iff. left. revert i.
    induction pts as [|p rest IH]; intros i; simpl; [reflexivity|].
    destruct (calibrated_some s p E) as (x & y & ->). simpl. apply IH.
  - apply orb_true_iff. right. revert i.
    induction pts as [|p rest IH]; intros i; simpl; [reflexivity|].
    rewrite (calibrated_none s p E). simpl. apply IH.
Qed.

Lemma rows_refresh_table (s : state) :
  rows (state_of (refresh_table s)) = rows_from s 1 (data_points s).
Proof.
  rewrite refresh_table_done. unfold rows. simpl state_of.
  cbn [tree set_tree]. now rewrite children_insert_all.
Qed.

(** * The claims *)

(** C1.  With the axis points X0=(10,0), X1=(110,0), Y0=(0,80), Y1=(0,0)
    and the axis values 0, 100, 0, 100 entered, [compute_calibrated_point]
    follows the linear formulas [x = x0Val + (pixelX - X0.pixelX) * xScale]
    and [y = y0Val + (Y0.pixelY - pixelY) * yScale] (Y inverted), and at
    [(60, 40)] it returns exactly [(50, 50)]. *)
Theorem calibrated_point_example (s : state) (img_x img_y : Qc) :
  image s <> None ->
  axis_points s = [(10, 0); (110, 0); (0, 80); (0, 0)] ->
  x0_entry s = Some (fin 0) -> x1_entry s = Some (fin 100) ->
  y0_entry s = Some (fin 0) -> y1_entry s = Some (fin 100) ->
  compute_calibrated_point s img_x img_y =
    Return (Some
      (Fin (of_int 0 + (img_x - of_int 10) * ((of_int 100 - of_int 0) / of_int (110 - 10)))%Qc,
       Fin (of_int 0 + (of_int 80 - img_y) * ((of_int 100 - of_int 0) / of_int (80 - 0)))%Qc))
  /\ compute_calibrated_point s (of_int 60) (of_int 40) = Return (Some (fin 50, fin 50)).
Proof.
  intros Hi Ha H0 H1 H2 H3.
  assert (Hgen : forall x y,
    compute_calibrated_point s x y =
    Return (Some
      (Fin (of_int 0 + (x - of_int 10) * ((of_int 100 - of_int 0) / of_int (110 - 10)))%Qc,
       Fin (of_int 0 + (of_int 80 - y) * ((of_int 100 - of_int 0) / of_int (80 - 0)))%Qc))).
  { intros x y. unfold compute_calibrated_point.
    destruct (image s); [|contradiction].
    rewrite Ha, H0, H1, H2, H3.
    cbn [List.length Nat.eqb negb nth fst snd Z.eqb orb].
    unfold fin. cbn [sub neg add].
    change (0 =? 10) with false. change (110 =? 10) with false.
    change (80 =? 0) with false. cbn [orb].
    rewrite !div_fin by (intros E; apply of_int_eq_zero in E; discriminate).
    cbn [mul add]. reflexivity. }
  split; [apply Hgen|].
  rewrite Hgen. unfold fin. do 3 f_equal; qc_eq.
Qed.

Lemma calibrated_point_example_witness :
  image calibrated_state <> None /\
  axis_points calibrated_state = [(10, 0); (110, 0); (0, 80); (0, 0)] /\
  compute_calibrated_point calibrated_state (of_int 60) (of_int 40) =
    Return (Some (fin 50, fin 50)).
Proof.
  split; [discriminate|]. split; [reflexivity|].
  apply (calibrated_point_example calibrated_state (of_int 60) (of_int 40));
    solve [discriminate | reflexivity].
Defined.



(** C3, as stated, fails: with "inf" typed into the X0 entry the four
    values do not all parse as finite numbers, yet a pair is returned. *)
Lemma calibration_not_exactly_finite :
  reachable (run infinite_events) /\
  spec_isAvailable (run infinite_events) = false /\
  compute_calibrated_point (run infinite_events) (of_int 60) (of_int 40) =
    Return (Some (NaN, fin 50)).
Proof.
  split; [apply reachable_run, infinite_events_ok|].
  split; [reflexivity|].
  apply calib_eqb_eq. vm_compute. reflexivity.
Qed.

(** C3, amended.  In every reachable state [compute_calibrated_point]
    returns [None], not an error, exactly when calibration is unavailable,
    where availability requires that exactly 4 axis points exist, that
    [float()] accepts all 4 axis entries (the infinities and NaN included),
    that X1.pixelX differs from X0.pixelX and Y0.pixelY from Y1.pixelY;
    whenever these hold it returns a pair. *)
Theorem calibration_absent_iff_unavailable (s : state) (img_x img_y : Qc) :
  reachable s ->
  (compute_calibrated_point s img_x img_y = Return None
   <-> spec_isAvailable_parsed s = false)
  /\ (spec_isAvailable_parsed s = true ->
      exists x_val y_val,
        compute_calibrated_point s img_x img_y = Return (Some (x_val, y_val))).
Proof.
  intros Hr. rewrite <- (reachable_available s Hr). split; [split|].
  - intros H. destruct (calibration_available s) eqn:E; [|reflexivity].
    destruct (compute_available s img_x img_y E) as (x & y & H'). congruence.
  - apply compute_unavailable.
  - apply compute_available.
Qed.

Lemma calibration_absent_iff_unavailable_witness :
  reachable calibrated_state /\
  spec_isAvailable_parsed calibrated_state = true /\
  exists x_val y_val,
    compute_calibrated_point calibrated_state (of_int 60) (of_int 40) =
    Return (Some (x_val, y_val)).
Proof.
  split; [exact calibrated_state_reachable|]. split; [reflexivity|].
  apply (calibration_absent_iff_unavailable calibrated_state (of_int 60) (of_int 40)
           calibrated_state_reachable).
  reflexivity.
Defined.

(** C4, as stated, fails: a zoom-out step multiplies the scale by 0.9, not
    by 1/1.1. *)
Lemma zoom_out_is_not_inverse :
  let s := run [OpenImage (Some image_200x100)] in
  scale (handle s (Button5 0 0)) = (scale s * zoom_out_factor)%Qc /\
  scale (handle s (Button5 0 0)) <> (scale s * (1 / zoom_in_factor))%Qc.
Proof.
  split.
  - qc_eq.
  - intros H. apply (f_equal (fun q : Qc => Qnum q)) in H. vm_compute in H. discriminate.
Qed.

(** C4, amended.  With an image loaded, every zoom step multiplies [scale]
    by exactly 1.1 when the direction is positive and by exactly 0.9
    otherwise; the zoom operation applies no other factor, and without an
    image it changes nothing. *)
Theorem zoom_step_factor (s : state) (mx my event_delta : Z) (delta : option Z) :
  scale s <> 0%Qc ->
  (image s <> None ->
   scale (state_of (on_zoom s mx my event_delta delta)) =
   (scale s * (if zoom_delta event_delta delta >? 0 then Q2Qc (11 # 10) else Q2Qc (9 # 10)))%Qc)
  /\ (image s = None -> on_zoom s mx my event_delta delta = Done s).
Proof.
  intros Hs. split.
  - intros Hi. rewrite on_zoom_image, refresh_table_done by assumption. reflexivity.
  - apply on_zoom_no_image.
Qed.

Lemma zoom_step_factor_witness :
  scale calibrated_state <> 0%Qc /\
  scale (state_of (on_zoom calibrated_state 37 12 (-120) None)) =
  (scale calibrated_state * Q2Qc (9 # 10))%Qc.
Proof.
  assert (H : scale calibrated_state <> 0%Qc) by (vm_compute; discriminate).
  split; [exact H|].
  apply (zoom_step_factor calibrated_state 37 12 (-120) None H). discriminate.
Defined.

(** C5, as stated, fails: the plot receives the pixel pair (60, 40) for
    the first row and the calibrated pair (10.0, 62.5) for the second. *)
Lemma plot_mixes_rows :
  reachable (run mixed_events) /\
  exists x_vals y_vals,
    plot_data (run mixed_events) = Return (Plotted x_vals y_vals) /\
    map pynum_value x_vals = [Some (60 # 1); Some (10 # 1)]%Q /\
    map pynum_value y_vals = [Some (40 # 1); Some (125 # 2)]%Q /\
    map is_pixel_pair (combine x_vals y_vals) = [true; false] /\
    map is_calibrated_pair (combine x_vals y_vals) = [false; true] /\
    uniform (combine x_vals y_vals) = false.
Proof.
  split; [apply reachable_run, mixed_events_ok|].
  eexists. eexists. split; [vm_compute; reflexivity|].
  repeat split; reflexivity.
Qed.

(** C5, amended.  [plot_data] decides row by row: a table row whose two
    calibrated cells are both filled contributes its calibrated pair, any
    other row its pixel pair.  The cells are those written when the row
    was inserted; right after [refresh_table] has rebuilt the table all
    rows are calibrated pairs or all rows are pixel pairs. *)
Theorem plot_row_by_row (s : state) :
  reachable s ->
  plot_data s = Return (plot_rows (map plot_row (rows s)))
  /\ uniform (map plot_row (rows (state_of (refresh_table s)))) = true.
Proof.
  intros Hr. apply reachable_invariant in Hr. destruct Hr as [_ Ht]. split.
  - unfold plot_data, rows. rewrite map_map.
    unfold table_consistent, rows in Ht.
    destruct (children (tree s)) as [|c cs]; [|reflexivity].
    simpl in Ht. destruct (data_points s); [reflexivity|discriminate].
  - rewrite rows_refresh_table. apply rows_from_uniform.
Qed.

Lemma plot_row_by_row_witness :
  reachable (run mixed_events) /\
  uniform (map plot_row (rows (run mixed_events))) = false /\
  uniform (map plot_row (rows (state_of (refresh_table (run mixed_events))))) = true.
Proof.
  assert (Hr : reachable (run mixed_events)) by apply reachable_run, mixed_events_ok.
  split; [exact Hr|]. split; [reflexivity|].
  apply (plot_row_by_row (run mixed_events) Hr).
Defined.

(** C6.  After every sequence of events from the initial state (image
    loads, clicks, deletions, zooms, pans and the others) the table has as
    many rows as there are stored data points, and its index column is
    1..N in order. *)
Theorem table_matches_data_points (s : state) :
  reachable s ->
  List.length (rows s) = List.length (data_points s)
  /\ map row_index (rows s) = indices 1 (List.length (data_points s)).
Proof.
  intros Hr. apply reachable_invariant in Hr. destruct Hr as [_ Ht].
  unfold table_consistent in Ht. split.
  - rewrite <- (length_map row_key), Ht. apply enumerate_length.
  - rewrite <- (enumerate_indices (data_points s) 1), <- Ht, map_map. reflexivity.
Qed.

Lemma table_matches_data_points_witness :
  reachable (run table_events) /\
  data_points (run table_events) = [(60, 40); (5, 5)] /\
  List.length (rows (run table_events)) = 2%nat /\
  map row_index (rows (run table_events)) = [1; 2].
Proof.
  assert (Hr : reachable (run table_events)) by apply reachable_run, table_events_ok.
  split; [exact Hr|]. split; [reflexivity|].
  exact (table_matches_data_points (run table_events) Hr).
Defined.



(** C8.  With a degenerate axis geometry (X1.pixelX equal to X0.pixelX, or
    Y0.pixelY equal to Y1.pixelY) [convert_points] shows an error box and
    returns no result, the zero-division message when the four entries
    parse, and [compute_calibrated_point] returns [None] in the same
    state. *)
Theorem degenerate_axes_refused (s : state) (img_x img_y : Qc) :
  List.length (axis_points s) = 4%nat ->
  x1_px s = x0_px s \/ y0_py s = y1_py s ->
  (exists msg, convert_points s = Return (Refused msg)
               /\ (entries_parse s = true -> msg = msg_zero_division))
  /\ compute_calibrated_point s img_x img_y = Return None.
Proof.
  intros Hlen Hdeg.
  assert (Hd : degenerate s = true).
  { unfold degenerate. apply orb_true_iff.
    destruct Hdeg as [H|H]; [left|right]; now apply Z.eqb_eq. }
  split.
  - unfold convert_points, entries_parse. rewrite Hlen. cbn [Nat.eqb negb].
    unfold degenerate, x0_px, x1_px, y0_py, y1_py in Hd.
    destruct (x0_entry s), (x1_entry s), (y0_entry s), (y1_entry s);
      try (eexists; split; [reflexivity|discriminate]).
    rewrite Hd. eexists; split; reflexivity.
  - apply compute_unavailable. unfold calibration_available. rewrite Hd.
    cbn [negb]. now rewrite andb_false_r.
Qed.

Lemma degenerate_axes_refused_witness :
  List.length (axis_points (run degenerate_events)) = 4%nat /\
  x1_px (run degenerate_events) = x0_px (run degenerate_events) /\
  convert_points (run degenerate_events) = Return (Refused msg_zero_division) /\
  compute_calibrated_point (run degenerate_events) (of_int 60) (of_int 40) = Return None.
Proof.
  split; [reflexivity|]. split; [reflexivity|].
  destruct (degenerate_axes_refused (run degenerate_events) (of_int 60) (of_int 40))
    as [[msg [Hc Hm]] Hn]; [reflexivity | left; reflexivity |].
  split; [|exact Hn]. rewrite Hc, Hm; reflexivity.
Defined.



(** C10.  [compute_calibrated_point] returns [None] whenever no image is
    loaded, even with exactly 4 axis points, four entries that parse and a
    non-degenerate axis geometry. *)
Theorem no_image_no_calibration (s : state) (img_x img_y : Qc) :
  image s = None -> compute_calibrated_point s img_x img_y = Return None.
Proof.
  intros H. unfold compute_calibrated_point. now rewrite H.
Qed.

Lemma no_image_no_calibration_witness :
  image imageless_state = None /\
  spec_isAvailable imageless_state = true /\
  compute_calibrated_point imageless_state (of_int 60) (of_int 40) = Return None.
Proof.
  split; [reflexivity|]. split; [reflexivity|].
  apply (no_image_no_calibration imageless_state (of_int 60) (of_int 40)). reflexivity.
Defined.

(** * Further properties *)

(** ** Integers among the floats *)

Lemma of_int_add (a b : Z) : of_int (a + b) = (of_int a + of_int b)%Qc.
Proof.
  unfold of_int, Qcplus. apply Q2Qc_eq_iff. unfold Q2Qc. cbn [this].
  rewrite !Qred_correct, inject_Z_plus. reflexivity.
Qed.

Lemma of_int_opp (a : Z) : of_int (- a) = (- of_int a)%Qc.
Proof.
  unfold of_int, Qcopp. apply Q2Qc_eq_iff. unfold Q2Qc. cbn [this].
  rewrite Qred_correct, inject_Z_opp. reflexivity.
Qed.

Lemma of_int_sub (a b : Z) : of_int (a - b) = (of_int a - of_int b)%Qc.
Proof.
  unfold Qcminus. rewrite <- of_int_opp, <- of_int_add. reflexivity.
Qed.

Lemma this_of_int (z : Z) : this (of_int z) = inject_Z z.
Proof.
  unfold of_int, Q2Qc. cbn [this]. apply Qred_identity. apply Z.gcd_1_r.
Qed.

Lemma py_int_of_int (z : Z) : py_int (of_int z) = z.
Proof.
  unfold py_int. rewrite this_of_int. simpl. apply Z.quot_1_r.
Qed.


(** ** Calibration and conversion *)

(** [compute_calibrated_point] past its three [return None]. *)
Lemma compute_success (s : state) (x0_val x1_val y0_val y1_val x_scale y_scale : float)
    (img_x img_y : Qc) :
  image s <> None -> List.length (axis_points s) = 4%nat ->
  x0_entry s = Some x0_val -> x1_entry s = Some x1_val ->
  y0_entry s = Some y0_val -> y1_entry s = Some y1_val ->
  degenerate s = false ->
  div (sub x1_val x0_val) (Fin (of_int (x1_px s - x0_px s))) = Return x_scale ->
  div (sub y1_val y0_val) (Fin (of_int (y0_py s - y1_py s))) = Return y_scale ->
  compute_calibrated_point s img_x img_y =
  Return (Some (add x0_val (mul (Fin (img_x - of_int (x0_px s))%Qc) x_scale),
                add y0_val (mul (Fin (of_int (y0_py s) - img_y)%Qc) y_scale))).
Proof.
  intros Hi Hl H0 H1 H2 H3 Hd Hx Hy. unfold compute_calibrated_point.
  destruct (image s); [|contradiction].
  rewrite Hl, H0, H1, H2, H3. cbn [Nat.eqb negb].
  fold (x0_px s) (x1_px s) (y0_py s) (y1_py s).
  unfold degenerate in Hd. rewrite Hd, Hx, Hy. reflexivity.
Qed.




Lemma convert_rows_pixels (x0_val y0_val x_scale y_scale : float) (x0 y0 : Z)
    (pts : list point) :
  map converted_pixel (convert_rows x0_val y0_val x_scale y_scale x0 y0 pts) = pts.
Proof.
  induction pts as [|[px py] rest IH]; simpl; [reflexivity|now rewrite IH].
Qed.

(** X2.  Whenever [convert_points] succeeds in a state with an image, its
    rows are the data points in order, each with exactly the pair that
    [compute_calibrated_point] gives for that pixel. *)
Theorem convert_points_agrees (s : state) (converted : list (Z * Z * float * float)) :
  image s <> None ->
  convert_points s = Return (Converted converted) ->
  map converted_pixel converted = data_points s
  /\ Forall (fun r =>
       compute_calibrated_point s (of_int (fst (converted_pixel r)))
                                  (of_int (snd (converted_pixel r)))
       = Return (Some (converted_value r))) converted.
Proof.
  intros Hi H. unfold convert_points in H.
  destruct (Nat.eqb (List.length (axis_points s)) 4) eqn:Hl; [|discriminate].
  apply Nat.eqb_eq in Hl. cbn [negb] in H.
  destruct (x0_entry s) as [x0_val|] eqn:H0; [|discriminate].
  destruct (x1_entry s) as [x1_val|] eqn:H1; [|discriminate].
  destruct (y0_entry s) as [y0_val|] eqn:H2; [|discriminate].
  destruct (y1_entry s) as [y1_val|] eqn:H3; [|discriminate].
  fold (x0_px s) (x1_px s) (y0_py s) (y1_py s) in H.
  destruct ((x1_px s =? x0_px s) || (y0_py s =? y1_py s)) eqn:Hd; [discriminate|].
  destruct (div (sub x1_val x0_val) (Fin (of_int (x1_px s - x0_px s))))
    as [x_scale|] eqn:Hx; [|discriminate].
  destruct (div (sub y1_val y0_val) (Fin (of_int (y0_py s - y1_py s))))
    as [y_scale|] eqn:Hy; [|discriminate].
  injection H as <-. split; [apply convert_rows_pixels|].
  induction (data_points s) as [|[px py] rest IH]; simpl; constructor; [|exact IH].
  cbn [converted_pixel converted_value fst snd].
  rewrite (compute_success s x0_val x1_val y0_val y1_val x_scale y_scale) by assumption.
  now rewrite !of_int_sub.
Qed.

Lemma convert_points_agrees_witness :
  image (handle calibrated_state (Button1 60 40)) <> None /\
  exists converted,
    convert_points (handle calibrated_state (Button1 60 40)) = Return (Converted converted) /\
    map converted_pixel converted = [(60, 40)] /\
    Forall (fun r =>
       compute_calibrated_point (handle calibrated_state (Button1 60 40))
         (of_int (fst (converted_pixel r))) (of_int (snd (converted_pixel r)))
       = Return (Some (converted_value r))) converted.
Proof.
  assert (Hi : image (handle calibrated_state (Button1 60 40)) <> None)
    by (vm_compute; discriminate).
  split; [exact Hi|].
  destruct (convert_points (handle calibrated_state (Button1 60 40)))
    as [[msg|converted]|e] eqn:E; try (vm_compute in E; discriminate).
  exists converted. split; [reflexivity|].
  assert (Hd : data_points (handle calibrated_state (Button1 60 40)) = [(60, 40)])
    by (vm_compute; reflexivity).
  rewrite <- Hd.
  exact (convert_points_agrees (handle calibrated_state (Button1 60 40)) converted Hi E).
Defined.

Lemma convert_rows_length (x0_val y0_val x_scale y_scale : float) (x0 y0 : Z)
    (pts : list point) :
  List.length (convert_rows x0_val y0_val x_scale y_scale x0 y0 pts) = List.length pts.
Proof.
  rewrite <- (convert_rows_pixels x0_val y0_val x_scale y_scale x0 y0 pts) at 2.
  now rewrite length_map.
Qed.

(** X3.  No exception leaves [convert_points], and the first failing
    check decides what it reports: the number of axis points, then the
    four entries, then the axis geometry.  When all three pass it returns
    one row for each data point; it never looks at the image. *)
Theorem convert_points_outcome (s : state) :
  (List.length (axis_points s) <> 4%nat ->
   convert_points s = Return (Refused msg_four_points))
  /\ (List.length (axis_points s) = 4%nat -> entries_parse s = false ->
      convert_points s = Return (Refused msg_numeric))
  /\ (List.length (axis_points s) = 4%nat -> entries_parse s = true ->
      degenerate s = true ->
      convert_points s = Return (Refused msg_zero_division))
  /\ (List.length (axis_points s) = 4%nat -> entries_parse s = true ->
      degenerate s = false ->
      exists converted,
        convert_points s = Return (Converted converted)
        /\ List.length converted = List.length (data_points s)).
Proof.
  unfold convert_points, entries_parse, degenerate.
  fold (x0_px s) (x1_px s) (y0_py s) (y1_py s).
  repeat split.
  - intros H. apply Nat.eqb_neq in H. now rewrite H.
  - intros -> H. cbn [Nat.eqb negb].
    destruct (x0_entry s), (x1_entry s), (y0_entry s), (y1_entry s);
      try reflexivity; discriminate.
  - intros -> H Hd. cbn [Nat.eqb negb].
    destruct (x0_entry s), (x1_entry s), (y0_entry s), (y1_entry s);
      try discriminate. now rewrite Hd.
  - intros -> H Hd. cbn [Nat.eqb negb].
    destruct (x0_entry s) as [x0_val|], (x1_entry s) as [x1_val|],
      (y0_entry s) as [y0_val|], (y1_entry s) as [y1_val|]; try discriminate.
    rewrite Hd. apply orb_false_iff in Hd. destruct Hd as [Hx Hy].
    apply Z.eqb_neq in Hx. apply Z.eqb_neq in Hy.
    destruct (div_by_int (sub x1_val x0_val) (x1_px s - x0_px s)) as [x_scale ->]; [lia|].
    destruct (div_by_int (sub y1_val y0_val) (y0_py s - y1_py s)) as [y_scale ->]; [lia|].
    eexists. split; [reflexivity|]. apply convert_rows_length.
Qed.

(** ** The table and the view *)

Lemma rows_from_ext (s s' : state) (pts : list point) :
  (forall x y, compute_calibrated_point s' x y = compute_calibrated_point s x y) ->
  forall i, rows_from s' i pts = rows_from s i pts.
Proof.
  intros H. induction pts as [|p rest IH]; intros i; simpl; [reflexivity|].
  unfold calibrated at 1. rewrite H. fold (calibrated s p). now rewrite IH.
Qed.

(** X4.  Rebuilding the table is idempotent: [refresh_table] is left by no
    exception, changes nothing but the table, and a second run yields the
    same rows as the first. *)
Theorem refresh_table_idempotent (s : state) :
  exists s1,
    refresh_table s = Done s1
    /\ data_points s1 = data_points s /\ axis_points s1 = axis_points s
    /\ rows s1 = rows_from s 1 (data_points s)
    /\ rows (state_of (refresh_table s1)) = rows s1.
Proof.
  assert (Hd : data_points (state_of (refresh_table s)) = data_points s)
    by now rewrite refresh_table_done.
  exists (state_of (refresh_table s)).
  split; [now rewrite refresh_table_done|]. split; [exact Hd|].
  split; [now rewrite refresh_table_done|].
  split; [apply rows_refresh_table|].
  rewrite (rows_refresh_table (state_of (refresh_table s))), Hd, rows_refresh_table.
  apply rows_from_ext. intros x y. rewrite refresh_table_done. now apply compute_ext.
Qed.

Lemma same_points_refl (s : state) : same_points s s.
Proof. repeat split. Qed.

Lemma same_points_compute (s s' : state) :
  same_points s s' ->
  forall x y, compute_calibrated_point s' x y = compute_calibrated_point s x y.
Proof.
  intros (Hi & Ha & _ & H0 & H1 & H2 & H3) x y.
  apply compute_ext; auto. unfold image_loaded. now rewrite Hi.
Qed.

Lemma same_points_refresh (s s2 : state) :
  same_points s s2 ->
  same_points s (state_of (refresh_table s2))
  /\ rows (state_of (refresh_table s2)) = rows_from s 1 (data_points s).
Proof.
  intros H. pose proof H as (Hi & Ha & Hd & H0 & H1 & H2 & H3). split.
  - rewrite refresh_table_done. repeat split; assumption.
  - rewrite rows_refresh_table, Hd. apply rows_from_ext.
    now apply same_points_compute.
Qed.

Lemma on_zoom_cases (s : state) (x y event_delta : Z) (delta : option Z) :
  state_of (on_zoom s x y event_delta delta) = s
  \/ on_zoom s x y event_delta delta = refresh_table (zoomed s x y event_delta delta).
Proof.
  unfold on_zoom. destruct (image s); [|now left].
  unfold truediv. destruct (Qc_eq_dec (scale s) 0%Qc); [now left|now right].
Qed.

Lemma do_pan_active (s : state) (start : Z * Z) (x y : Z) :
  drag_start s = Some start ->
  do_pan s x y = refresh_table (panned s start x y).
Proof.
  intros H. unfold do_pan. rewrite H. now destruct start.
Qed.

(** X5.  Wheel events and the presses, drags and releases of both pans
    change neither the image, the axis points, the data points nor what
    [compute_calibrated_point] returns; they leave the table as it is or
    rebuild it from the current calibration. *)
Theorem view_events_keep_calibration (s : state) (e : event) :
  view_event e = true ->
  image (handle s e) = image s
  /\ axis_points (handle s e) = axis_points s
  /\ data_points (handle s e) = data_points s
  /\ (forall x y, compute_calibrated_point (handle s e) x y
                  = compute_calibrated_point s x y)
  /\ (rows (handle s e) = rows s
      \/ rows (handle s e) = rows_from s 1 (data_points s)).
Proof.
  intros He.
  assert (H : same_points s (handle s e)
              /\ (rows (handle s e) = rows s
                  \/ rows (handle s e) = rows_from s 1 (data_points s))).
  { assert (Hz : forall x y d delta,
              same_points s (state_of (on_zoom s x y d delta))
              /\ (rows (state_of (on_zoom s x y d delta)) = rows s
                  \/ rows (state_of (on_zoom s x y d delta))
                     = rows_from s 1 (data_points s))).
    { intros x y d delta. destruct (on_zoom_cases s x y d delta) as [-> | ->].
      - split; [apply same_points_refl|now left].
      - destruct (same_points_refresh s (zoomed s x y d delta)) as [H1 H2];
          [repeat split|]. split; [exact H1|now right]. }
    assert (Hp : forall x y,
              same_points s (state_of (do_pan s x y))
              /\ (rows (state_of (do_pan s x y)) = rows s
                  \/ rows (state_of (do_pan s x y)) = rows_from s 1 (data_points s))).
    { intros x y. destruct (drag_start s) as [start|] eqn:Hs.
      - rewrite (do_pan_active s start) by assumption.
        destruct (same_points_refresh s (panned s start x y)) as [H1 H2];
          [repeat split|]. split; [exact H1|now right].
      - rewrite do_pan_idle by assumption.
        split; [apply same_points_refl|now left]. }
    unfold handle. destruct e; try discriminate; simpl dispatch; auto;
      (split; [repeat split|now left]). }
  destruct H as [Hs Hr]. pose proof Hs as (Hi & Ha & Hd & _).
  repeat split; try assumption. now apply same_points_compute.
Qed.

Lemma view_events_keep_calibration_witness :
  view_event (Button4 30 20) = true /\
  data_points (handle (run mixed_events) (Button4 30 20)) = [(60, 40); (20, 30)] /\
  forall x y,
    compute_calibrated_point (handle (run mixed_events) (Button4 30 20)) x y
    = compute_calibrated_point (run mixed_events) x y.
Proof.
  split; [reflexivity|].
  destruct (view_events_keep_calibration (run mixed_events) (Button4 30 20) eq_refl)
    as (_ & _ & Hd & Hc & _).
  split; [exact Hd | exact Hc].
Defined.







(** ** Export and plot *)

Lemma rows_empty_iff (s : state) :
  table_consistent s -> (rows s = [] <-> data_points s = []).
Proof.
  unfold table_consistent. intros H. split; intros E.
  - rewrite E in H. simpl in H. destruct (data_points s); [reflexivity|discriminate].
  - rewrite E in H. simpl in H. destruct (rows s); [reflexivity|discriminate].
Qed.

Lemma rows_length (s : state) :
  table_consistent s -> List.length (rows s) = List.length (data_points s).
Proof.
  unfold table_consistent. intros H.
  rewrite <- (length_map row_key), H. apply enumerate_length.
Qed.

Lemma export_csv_table (s : state) (path write_error : option string) :
  table_consistent s ->
  export_csv s path write_error
  = Return (export_rows (map export_row (rows s)) path write_error).
Proof.
  intros Ht. unfold export_csv. unfold rows. rewrite map_map.
  destruct (children (tree s)) as [|c cs] eqn:E; [|reflexivity].
  assert (Hd : data_points s = []) by (apply rows_empty_iff; [assumption|]; unfold rows; now rewrite E).
  rewrite Hd. reflexivity.
Qed.

Lemma plot_data_table (s : state) :
  table_consistent s ->
  plot_data s = Return (plot_rows (map plot_row (rows s))).
Proof.
  intros Ht. unfold plot_data. unfold rows. rewrite map_map.
  destruct (children (tree s)) as [|c cs] eqn:E; [|reflexivity].
  assert (Hd : data_points s = []) by (apply rows_empty_iff; [assumption|]; unfold rows; now rewrite E).
  rewrite Hd. reflexivity.
Qed.

(** X9.  In every reachable state [export_csv] reports that there is
    nothing to export exactly when there are no data points; otherwise,
    with a file chosen and written, it saves one line for each data point,
    in order and with that point's pixel columns, and reports their number.
    It never falls back on [convert_points], so it never shows a
    conversion error. *)
Theorem export_lists_data_points (s : state) (path write_error : option string) :
  reachable s ->
  (data_points s = [] ->
   export_csv s path write_error = Return (ExportInfo msg_no_export))
  /\ (data_points s <> [] -> forall file, path = Some file -> write_error = None ->
      exists lines,
        export_csv s path write_error
        = Return (ExportSaved file csv_header lines (List.length (data_points s)))
        /\ map line_pixel lines = data_points s)
  /\ (forall msg, export_csv s path write_error <> Return (ExportRefused msg)).
Proof.
  intros Hr. apply reachable_invariant in Hr. destruct Hr as [_ Ht].
  rewrite (export_csv_table s path write_error Ht).
  assert (Hp : map line_pixel (map export_row (rows s)) = data_points s).
  { rewrite <- (table_points s Ht). unfold rows. rewrite !map_map. reflexivity. }
  repeat split.
  - intros E. apply (rows_empty_iff s Ht) in E. now rewrite E.
  - intros Hne file -> ->. exists (map export_row (rows s)). split; [|exact Hp].
    rewrite <- (rows_length s Ht), <- (length_map export_row).
    destruct (map export_row (rows s)) eqn:E; [|reflexivity].
    simpl in Hp. congruence.
  - intros msg. unfold export_rows.
    destruct (map export_row (rows s)); [discriminate|].
    destruct path; [|discriminate]. destruct write_error; discriminate.
Qed.

Lemma export_lists_data_points_witness :
  reachable (run table_events) /\
  exists lines,
    export_csv (run table_events) (Some "points.csv"%string) None
    = Return (ExportSaved "points.csv"%string csv_header lines 2)
    /\ map line_pixel lines = [(60, 40); (5, 5)].
Proof.
  assert (Hr : reachable (run table_events)) by apply reachable_run, table_events_ok.
  split; [exact Hr|].
  assert (Hd : data_points (run table_events) = [(60, 40); (5, 5)])
    by (vm_compute; reflexivity).
  destruct (export_lists_data_points (run table_events) (Some "points.csv"%string) None Hr)
    as (_ & H & _).
  rewrite Hd in H. exact (H ltac:(discriminate) "points.csv"%string eq_refl eq_refl).
Defined.

(** X10.  In every reachable state [plot_data] reports that there is
    nothing to plot exactly when there are no data points; otherwise it
    plots one x value and one y value for each data point.  It never shows
    a conversion error. *)
Theorem plot_one_pair_per_point (s : state) :
  reachable s ->
  (data_points s = [] -> plot_data s = Return (PlotInfo msg_no_points))
  /\ (data_points s <> [] ->
      exists x_vals y_vals,
        plot_data s = Return (Plotted x_vals y_vals)
        /\ List.length x_vals = List.length (data_points s)
        /\ List.length y_vals = List.length (data_points s))
  /\ (forall msg, plot_data s <> Return (PlotRefused msg)).
Proof.
  intros Hr. apply reachable_invariant in Hr. destruct Hr as [_ Ht].
  rewrite (plot_data_table s Ht). repeat split.
  - intros E. apply (rows_empty_iff s Ht) in E. now rewrite E.
  - intros Hne. rewrite <- (rows_length s Ht), <- (length_map plot_row).
    destruct (map plot_row (rows s)) as [|r rs] eqn:E.
    + apply map_eq_nil in E. apply (rows_empty_iff s Ht) in E. contradiction.
    + eexists. eexists. split; [reflexivity|].
      split; [apply length_fst_split | apply length_snd_split].
  - intros msg. unfold plot_rows. destruct (map plot_row (rows s)); discriminate.
Qed.

Lemma plot_one_pair_per_point_witness :
  reachable (run table_events) /\
  exists x_vals y_vals,
    plot_data (run table_events) = Return (Plotted x_vals y_vals)
    /\ List.length x_vals = 2%nat /\ List.length y_vals = 2%nat.
Proof.
  assert (Hr : reachable (run table_events)) by apply reachable_run, table_events_ok.
  split; [exact Hr|].
  assert (Hd : data_points (run table_events) = [(60, 40); (5, 5)])
    by (vm_compute; reflexivity).
  destruct (plot_one_pair_per_point (run table_events) Hr) as (_ & H & _).
  rewrite Hd in H. exact (H ltac:(discriminate)).
Defined.

(** ** Deleting rows, once more *)

Lemma filter_filter {A : Type} (f g : A -> bool) (l : list A) :
  filter f (filter g l) = filter (fun x => g x && f x) l.
Proof.
  induction l as [|a l IH]; simpl; [reflexivity|].
  destruct (g a); simpl; [destruct (f a)|]; now rewrite IH.
Qed.

Lemma children_fold_delete (sel : list iid) :
  forall t : treeview,
    children (fold_left Tree.delete sel t) = filter (unpicked sel) (children t).
Proof.
  induction sel as [|i sel IH]; intros t; simpl.
  - induction (children t) as [|c l IHl]; simpl; [reflexivity|now rewrite <- IHl].
  - rewrite IH. simpl. rewrite filter_filter. apply filter_ext.
    intros c. unfold unpicked. simpl. now rewrite negb_orb.
Qed.

Lemma picked_in_selection (t : treeview) (picked : list iid) (c : iid * row) :
  In c (children t) ->
  existsb (Nat.eqb (fst c)) (Tree.selection t picked) = existsb (Nat.eqb (fst c)) picked.
Proof.
  intros Hc. unfold Tree.selection.
  destruct (existsb (Nat.eqb (fst c)) picked) eqn:E.
  - apply existsb_exists. exists (fst c). split; [|apply Nat.eqb_refl].
    apply filter_In. split; [now apply in_map|exact E].
  - apply not_true_is_false. intros H. apply existsb_exists in H.
    destruct H as (j & Hj & Hij). apply Nat.eqb_eq in Hij. subst j.
    apply filter_In in Hj. destruct Hj as [_ Hj]. congruence.
Qed.

Lemma unpicked_selection (t : treeview) (picked : list iid) :
  filter (unpicked (Tree.selection t picked)) (children t)
  = filter (unpicked picked) (children t).
Proof.
  apply filter_ext_in. intros c Hc. unfold unpicked.
  now rewrite picked_in_selection.
Qed.

Lemma selection_length (t : treeview) (picked : list iid) :
  (List.length (filter (unpicked picked) (children t))
   + List.length (Tree.selection t picked) = List.length (children t))%nat.
Proof.
  unfold Tree.selection. rewrite filter_map_swap, length_map, Nat.add_comm.
  apply (filter_length (fun c : iid * row => existsb (Nat.eqb (fst c)) picked)).
Qed.

(** X11.  In every reachable state [delete_selected] removes exactly the
    highlighted rows: the data points left are those of the other rows, in
    their order, the number of data points drops by the number of rows of
    the selection, and the axis points are untouched. *)
Theorem delete_selected_exact (s : state) (picked : list iid) :
  reachable s ->
  data_points (handle s (DeleteSelected picked))
  = map row_point (filter (unpicked picked) (children (tree s)))
  /\ (List.length (data_points (handle s (DeleteSelected picked)))
      + List.length (Tree.selection (tree s) picked)
      = List.length (data_points s))%nat
  /\ axis_points (handle s (DeleteSelected picked)) = axis_points s.
Proof.
  intros Hr. apply reachable_invariant in Hr. destruct Hr as [_ Ht].
  assert (Hd : data_points (handle s (DeleteSelected picked))
               = map row_point (filter (unpicked picked) (children (tree s)))).
  { unfold handle. simpl dispatch. unfold delete_selected.
    rewrite <- unpicked_selection, <- children_fold_delete.
    destruct (Tree.selection (tree s) picked) as [|i sel].
    - simpl. symmetry. now apply table_points.
    - now rewrite refresh_table_done. }
  split; [exact Hd|]. split.
  - rewrite Hd, length_map, <- (table_points s Ht), length_map.
    apply selection_length.
  - unfold handle. simpl dispatch. unfold delete_selected.
    destruct (Tree.selection (tree s) picked); [reflexivity|].
    now rewrite refresh_table_done.
Qed.

Lemma delete_selected_exact_witness :
  reachable (run mixed_events) /\
  data_points (run mixed_events) = [(60, 40); (20, 30)] /\
  data_points (handle (run mixed_events) (DeleteSelected [0%nat; 7%nat])) = [(20, 30)].
Proof.
  assert (Hr : reachable (run mixed_events)) by apply reachable_run, mixed_events_ok.
  split; [exact Hr|]. split; [vm_compute; reflexivity|].
  rewrite (proj1 (delete_selected_exact (run mixed_events) [0%nat; 7%nat] Hr)).
  vm_compute. reflexivity.
Defined.

Lemma point_eqb_eq (p q : point) : point_eqb p q = true <-> p = q.
Proof.
  unfold point_eqb. destruct p as [a b], q as [c d]. simpl.
  rewrite andb_true_iff, !Z.eqb_eq. split; [intros [-> ->]; reflexivity|].
  intros H. injection H as -> ->. auto.
Qed.

Lemma list_remove_length (p : point) (l : list point) :
  In p l -> (List.length (list_remove p l) + 1 = List.length l)%nat.
Proof.
  induction l as [|q l IH]; simpl; [contradiction|]. intros H.
  destruct (point_eqb q p) eqn:E; [lia|].
  destruct H as [H|H].
  - subst q. assert (point_eqb p p = true) by now apply point_eqb_eq. congruence.
  - simpl. rewrite <- (IH H). lia.
Qed.

Lemma selected_item (t : treeview) (picked : list iid) (i : iid) (rest : list iid) :
  Tree.selection t picked = i :: rest ->
  exists c, In c (children t) /\ Tree.item t i = Some (snd c).
Proof.
  intros H. assert (Hi : In i (Tree.selection t picked)) by (rewrite H; now left).
  unfold Tree.selection in Hi. apply filter_In in Hi. destruct Hi as [Hi _].
  apply in_map_iff in Hi. destruct Hi as (c & Hc & Hin).
  unfold Tree.item.
  destruct (find (fun c0 => Nat.eqb (fst c0) i) (children t)) as [c'|] eqn:E.
  - apply find_some in E. exists c'. split; [tauto|reflexivity].
  - apply (find_none _ _ E) in Hin. cbv beta in Hin.
    apply Nat.eqb_neq in Hin. contradiction.
Qed.

(** X12.  In every reachable state a double click on a table row
    ([edit_entry]) removes exactly one data point: the first data point
    that has the pixel pair of the first row of the selection.  The table
    is rebuilt and keeps one row per data point. *)
Theorem edit_entry_removes_one (s : state) (picked : list iid) (i : iid) (rest : list iid) :
  reachable s -> Tree.selection (tree s) picked = i :: rest ->
  exists vals,
    Tree.item (tree s) i = Some vals
    /\ data_points (handle s (DoubleClickRow picked))
       = list_remove (row_px vals, row_py vals) (data_points s)
    /\ (List.length (data_points (handle s (DoubleClickRow picked))) + 1
        = List.length (data_points s))%nat
    /\ List.length (rows (handle s (DoubleClickRow picked)))
       = List.length (data_points (handle s (DoubleClickRow picked))).
Proof.
  intros Hr Hsel. apply reachable_invariant in Hr. destruct Hr as [_ Ht].
  destruct (selected_item (tree s) picked i rest Hsel) as (c & Hc & Hitem).
  exists (snd c). split; [exact Hitem|].
  assert (Hd : data_points (handle s (DoubleClickRow picked))
               = list_remove (row_px (snd c), row_py (snd c)) (data_points s)).
  { unfold handle. simpl dispatch. unfold edit_entry.
    rewrite Hsel, Hitem, refresh_table_done. reflexivity. }
  split; [exact Hd|]. split.
  - rewrite Hd. apply list_remove_length.
    rewrite <- (table_points s Ht). now apply (in_map row_point) in Hc.
  - apply rows_length. unfold handle. simpl dispatch. unfold edit_entry.
    rewrite Hsel, Hitem. apply refresh_table_consistent.
Qed.

Lemma edit_entry_removes_one_witness :
  reachable (run mixed_events) /\
  Tree.selection (tree (run mixed_events)) [1%nat] = [1%nat] /\
  data_points (handle (run mixed_events) (DoubleClickRow [1%nat])) = [(60, 40)].
Proof.
  assert (Hr : reachable (run mixed_events)) by apply reachable_run, mixed_events_ok.
  assert (Hs : Tree.selection (tree (run mixed_events)) [1%nat] = [1%nat])
    by (vm_compute; reflexivity).
  split; [exact Hr|]. split; [exact Hs|].
  destruct (edit_entry_removes_one (run mixed_events) [1%nat] 1%nat [] Hr Hs)
    as (vals & Hitem & Hd & _).
  rewrite Hd. vm_compute in Hitem. injection Hitem as <-. vm_compute. reflexivity.
Defined.

(** ** Rounding and truncation *)




Lemma py_round_of_int (z : Z) : py_round (of_int z) = z.
Proof.
  unfold py_round. rewrite this_of_int, Qfloor_Z.
  assert (E : (inject_Z z - inject_Z z ?= 1 # 2)%Q = Lt).
  { apply Qlt_alt. setoid_replace (inject_Z z - inject_Z z)%Q with 0%Q by ring.
    reflexivity. }
  now rewrite E.
Qed.


(** ** The status bar *)



(** X14.  In the unzoomed view (scale 1, whole-pixel offsets) a position
    inside the image is handled exactly: a click stores the pixel under
    the pointer, the marker of that pixel is drawn at the clicked position,
    and the status bar there shows that pixel with the calibrated pair of
    that data point. *)
Theorem unzoomed_round_trip (s : state) (img : cv_image) (ox oy x y : Z) :
  image s = Some img -> scale s = 1%Qc ->
  offset_x s = of_int ox -> offset_y s = of_int oy ->
  0 <= x - ox <= width img - 1 -> 0 <= y - oy <= height img - 1 ->
  clicked_point s img x y = (x - ox, y - oy)
  /\ marker_position s (x - ox, y - oy) = (x, y)
  /\ on_mouse_move s x y
     = Return (mkStatus (Some (x - ox, y - oy)) (calibrated s (x - ox, y - oy))).
Proof.
  intros Hi Hs Hx Hy Bx By.
  assert (Ex : ((of_int x - offset_x s) / scale s)%Qc = of_int (x - ox)).
  { rewrite Hs, Hx, of_int_sub. unfold Qcdiv.
    replace (/ 1)%Qc with 1%Qc by qc_eq. apply Qcmult_1_r. }
  assert (Ey : ((of_int y - offset_y s) / scale s)%Qc = of_int (y - oy)).
  { rewrite Hs, Hy, of_int_sub. unfold Qcdiv.
    replace (/ 1)%Qc with 1%Qc by qc_eq. apply Qcmult_1_r. }
  split; [|split].
  - unfold clicked_point. rewrite Ex, Ey, !py_int_of_int. f_equal; lia.
  - unfold marker_position. rewrite Hs, Hx, Hy. cbn [fst snd].
    replace (of_int (x - ox) * 1 + of_int ox)%Qc with (of_int x)
      by (rewrite of_int_sub; ring).
    replace (of_int (y - oy) * 1 + of_int oy)%Qc with (of_int y)
      by (rewrite of_int_sub; ring).
    now rewrite !py_int_of_int.
  - unfold on_mouse_move. rewrite Hi.
    rewrite !truediv_nonzero by (rewrite Hs; apply Q_apart_0_1).
    rewrite Ex, Ey, !py_round_of_int, compute_calibrated.
    do 3 f_equal; f_equal; lia.
Qed.

Lemma unzoomed_round_trip_witness :
  let s := state_of (do_pan (handle calibrated_state (ButtonPress2 10 10)) 30 5) in
  image s = Some image_200x100 /\ scale s = 1%Qc /\
  offset_x s = of_int 20 /\ offset_y s = of_int (-5) /\
  clicked_point s image_200x100 80 35 = (80 - 20, 35 - -5) /\
  marker_position s (80 - 20, 35 - -5) = (80, 35).
Proof.
  intros s.
  assert (Hi : image s = Some image_200x100) by (vm_compute; reflexivity).
  assert (Hs : scale s = 1%Qc) by qc_eq.
  assert (Hx : offset_x s = of_int 20) by qc_eq.
  assert (Hy : offset_y s = of_int (-5)) by qc_eq.
  split; [exact Hi|]. split; [exact Hs|]. split; [exact Hx|]. split; [exact Hy|].
  destruct (unzoomed_round_trip s image_200x100 20 (-5) 80 35 Hi Hs Hx Hy)
    as (H1 & H2 & _); [simpl; lia | simpl; lia |].
  split; [exact H1 | exact H2].
Defined.

(** ** The canvas *)

Lemma draw_axis_markers_texts (s : state) (pts : list point) :
  forall i, item_texts (draw_axis_markers s i pts)
            = map axis_label (seq i (List.length pts)).
Proof.
  induction pts as [|p rest IH]; intros i; simpl; [reflexivity|].
  now rewrite IH.
Qed.

Lemma draw_axis_markers_ovals (s : state) (pts : list point) :
  forall i, List.length (filter is_oval (draw_axis_markers s i pts)) = List.length pts.
Proof.
  induction pts as [|p rest IH]; intros i; simpl; [reflexivity|].
  now rewrite IH.
Qed.

Lemma draw_axis_markers_length (s : state) (pts : list point) :
  forall i, List.length (draw_axis_markers s i pts) = (2 * List.length pts)%nat.
Proof.
  induction pts as [|p rest IH]; intros i; simpl; [reflexivity|].
  rewrite IH. lia.
Qed.

Lemma data_markers_texts (s : state) (pts : list point) :
  item_texts (map (draw_data_marker s) pts) = [].
Proof. induction pts as [|p rest IH]; simpl; [reflexivity|exact IH]. Qed.

Lemma data_markers_ovals (s : state) (pts : list point) :
  filter is_oval (map (draw_data_marker s) pts) = map (draw_data_marker s) pts.
Proof. induction pts as [|p rest IH]; simpl; [reflexivity|now rewrite IH]. Qed.

Lemma item_texts_app (l l' : list canvas_item) :
  item_texts (l ++ l') = item_texts l ++ item_texts l'.
Proof. unfold item_texts. apply flat_map_app. Qed.

Lemma axis_labels_first (n : nat) :
  (n <= 4)%nat ->
  map axis_label (seq 0 n)
  = firstn n ["X0"%string; "X1"%string; "Y0"%string; "Y1"%string].
Proof.
  intros H. do 5 (destruct n as [|n]; [reflexivity|]). lia.
Qed.

(** X15.  In every reachable state, when [draw_image] paints, it puts on
    the canvas the image, a label and a circle for each axis point and a
    dot for each data point; the labels are X0, X1, Y0, Y1 in click order,
    and the numeric label [str(i)] is never drawn. *)
Theorem draw_image_markers (s : state) (items : list canvas_item) :
  reachable s -> draw_image s = Some items ->
  item_texts items
  = firstn (List.length (axis_points s))
           ["X0"%string; "X1"%string; "Y0"%string; "Y1"%string]
  /\ List.length (filter is_oval items)
     = (List.length (axis_points s) + List.length (data_points s))%nat
  /\ List.length items
     = (1 + 2 * List.length (axis_points s) + List.length (data_points s))%nat.
Proof.
  intros Hr H. apply reachable_invariant in Hr. destruct Hr as [[_ Ha _ _] _].
  unfold draw_image in H. destruct (image s) as [img|]; [|discriminate].
  destruct ((py_int (of_int (width img) * scale s) <? 1)
            || (py_int (of_int (height img) * scale s) <? 1)); [discriminate|].
  injection H as <-. repeat split.
  - change (item_texts (ImageItem ?a ?b ?c ?d :: ?l)) with (item_texts l).
    rewrite item_texts_app, draw_axis_markers_texts, data_markers_texts, app_nil_r.
    now apply axis_labels_first.
  - cbn [filter is_oval]. rewrite filter_app, length_app, draw_axis_markers_ovals,
      data_markers_ovals, length_map. reflexivity.
  - cbn [List.length]. rewrite length_app, draw_axis_markers_length, length_map. lia.
Qed.

Lemma draw_image_markers_witness :
  reachable (run mixed_events) /\
  exists items,
    draw_image (run mixed_events) = Some items /\
    item_texts items = ["X0"%string; "X1"%string; "Y0"%string; "Y1"%string] /\
    List.length (filter is_oval items) = 6%nat.
Proof.
  assert (Hr : reachable (run mixed_events)) by apply reachable_run, mixed_events_ok.
  split; [exact Hr|].
  destruct (draw_image (run mixed_events)) as [items|] eqn:E;
    [|vm_compute in E; discriminate].
  exists items. split; [reflexivity|].
  destruct (draw_image_markers (run mixed_events) items Hr E) as (H1 & H2 & _).
  assert (Ha : axis_points (run mixed_events) = [(10, 0); (110, 0); (0, 80); (0, 0)])
    by (vm_compute; reflexivity).
  assert (Hd : data_points (run mixed_events) = [(60, 40); (20, 30)])
    by (vm_compute; reflexivity).
  rewrite Ha in H1, H2. rewrite Hd in H2. split; [exact H1 | exact H2].
Defined.

Lemma py_int_lt_1 (x : Qc) : py_int x < 1 <-> (x < 1)%Qc.
Proof.
  unfold py_int, Qclt, Qlt. destruct (this x) as [n d]. simpl.
  pose proof (Z.quot_rem' n (Zpos d)) as Hq.
  pose proof (Z.rem_bound_abs n (Zpos d) ltac:(discriminate)) as Hr.
  assert (Hp : 0 < Zpos d) by reflexivity.
  assert (Hs : 0 <= n -> 0 <= Z.rem n (Zpos d)) by (intros; apply Z.rem_nonneg; lia).
  assert (Hs' : n <= 0 -> Z.rem n (Zpos d) <= 0) by (intros; apply Z.rem_nonpos; lia).
  split; intros H; nia.
Qed.

(** X16.  With an image loaded, [draw_image] returns without touching the
    canvas exactly when the scaled image is less than one pixel wide or
    less than one pixel high; the zoom itself goes on regardless. *)
Theorem draw_image_skips_tiny (s : state) (img : cv_image) :
  image s = Some img ->
  (draw_image s = None
   <-> (of_int (width img) * scale s < 1 \/ of_int (height img) * scale s < 1)%Qc).
Proof.
  intros Hi. unfold draw_image. rewrite Hi.
  destruct (py_int (of_int (width img) * scale s) <? 1) eqn:Ew;
    destruct (py_int (of_int (height img) * scale s) <? 1) eqn:Eh; cbn [orb];
    try apply Z.ltb_lt in Ew; try apply Z.ltb_lt in Eh;
    try apply Z.ltb_ge in Ew; try apply Z.ltb_ge in Eh.
  - split; [intros _|reflexivity]. left. now apply py_int_lt_1.
  - split; [intros _|reflexivity]. left. now apply py_int_lt_1.
  - split; [intros _|reflexivity]. right. now apply py_int_lt_1.
  - split; [discriminate|]. intros [H|H]; apply py_int_lt_1 in H; lia.
Qed.

Lemma draw_image_skips_tiny_witness :
  let s := fold_left handle (repeat (Button5 0 0) 44) (run [OpenImage (Some image_200x100)]) in
  image s = Some image_200x100 /\ draw_image s = None /\
  scale (handle s (Button5 0 0)) = (scale s * Q2Qc (9 # 10))%Qc.
Proof.
  intros s.
  assert (Hi : image s = Some image_200x100) by (vm_compute; reflexivity).
  split; [exact Hi|]. split.
  - apply (draw_image_skips_tiny s image_200x100 Hi). right. vm_compute. reflexivity.
  - qc_eq.
Defined.

(** ** The Shift pan *)

Lemma refresh_table_flag (s : state) :
  panning_by_shift (state_of (refresh_table s)) = panning_by_shift s.
Proof. now rewrite refresh_table_done. Qed.

(** X17.  While a pan started with Shift held is on, every plain click is
    ignored, and only four events end it: a press or a release of the
    middle button, a release of the left button with Shift held, and
    Reset.  Loading an image does not end it. *)
Theorem shift_pan_blocks_clicks (s : state) :
  panning_by_shift s = true ->
  (forall x y, handle s (Button1 x y) = s)
  /\ (forall e, ends_shift_pan e = false -> panning_by_shift (handle s e) = true).
Proof.
  intros Hp. split.
  - intros x y. unfold handle. simpl dispatch.
    now rewrite on_left_click_ignored by now left.
  - intros e He. unfold handle.
    assert (Hz : forall x y d delta,
              panning_by_shift (state_of (on_zoom s x y d delta)) = true).
    { intros x y d delta. destruct (on_zoom_cases s x y d delta) as [-> | ->];
        [assumption|]. now rewrite refresh_table_flag. }
    assert (Hd : forall x y, panning_by_shift (state_of (do_pan s x y)) = true).
    { intros x y. destruct (drag_start s) as [start|] eqn:E.
      - now rewrite (do_pan_active s start), refresh_table_flag.
      - now rewrite do_pan_idle. }
    destruct e; try discriminate; simpl dispatch; auto.
    + destruct r; assumption.
    + destruct which; assumption.
    + now rewrite on_left_click_ignored by now left.
    + unfold delete_selected. destruct (Tree.selection (tree s) picked); [assumption|].
      now rewrite refresh_table_flag.
    + unfold edit_entry. destruct (Tree.selection (tree s) picked); [assumption|].
      destruct (Tree.item (tree s) i); [|assumption]. now rewrite refresh_table_flag.
Qed.

Lemma shift_pan_blocks_clicks_witness :
  let s := run [ShiftButtonPress1 5 5; OpenImage (Some image_200x100)] in
  panning_by_shift s = true /\ image s = Some image_200x100 /\
  axis_points (handle s (Button1 60 40)) = [].
Proof.
  intros s.
  assert (Hp : panning_by_shift s = true) by (vm_compute; reflexivity).
  split; [exact Hp|]. split; [vm_compute; reflexivity|].
  rewrite (proj1 (shift_pan_blocks_clicks s Hp) 60 40). vm_compute. reflexivity.
Defined.

(** ** Rows and clicks *)



(** ** Repeated zoom *)




(** ** One-to-one calibration *)



